(** * update_vott_assets: re-keying a VoTT project for a new source directory

    A shallow embedding of [update_vott_assets.py] and the properties of its
    four parts: the path normaliser (space to %20), the identifier mapper
    (MD5 of the candidate path), the file matcher (one file by suffix) and the
    rewrite engine (rename pass, then line-by-line content rewrite).

    Conventions of the embedding.
    - A Python [str] is a [string]; each [ascii] is one code point in
      U+0000..U+00FF, so [encode_utf8] writes the code points from U+0080 on
      as two bytes.
    - [os.path] is [posixpath]: the separator is "/".
    - A Python [dict] with string keys is an association list in insertion
      order with pairwise distinct keys.
    - Library calls ([glob.glob], [hashlib.md5], [os.rename], [str.replace],
      [re.sub] with a literal pattern) are embedded by their documented
      behaviour. [glob.glob] is embedded for paths and suffixes that hold
      none of its pattern characters ([has_magic]); the theorems that rest on
      a listing say so. *)

From Stdlib Require Import String Ascii List ZArith Lia Bool Arith Permutation.
Import ListNotations.

Open Scope string_scope.

(** ** Python strings *)

Module Str.

(** [s[n:]] for [0 <= n]. *)
Fixpoint drop (n : nat) (s : string) : string :=
  match n, s with
  | O, _ => s
  | S _, "" => ""
  | S k, String _ s' => drop k s'
  end.

(** [s[:n]] for [0 <= n]. *)
Fixpoint take (n : nat) (s : string) : string :=
  match n, s with
  | O, _ => ""
  | S _, "" => ""
  | S k, String c s' => String c (take k s')
  end.

(** [s.startswith(p)]. *)
Definition startswith (s p : string) : bool := String.prefix p s.

(** [s.endswith(suf)]: [suf] is [s] itself or ends the tail of [s]. *)
Fixpoint endswith (s suf : string) : bool :=
  (s =? suf) ||
  match s with
  | "" => false
  | String _ s' => endswith s' suf
  end.

(** [old in s]: [old] starts at some position of [s]. *)
Fixpoint contains (s old : string) : bool :=
  String.prefix old s ||
  match s with
  | "" => false
  | String _ s' => contains s' old
  end.

(** [c * n]. *)
Fixpoint repeat (c : ascii) (n : nat) : string :=
  match n with
  | O => ""
  | S k => String c (repeat c k)
  end.

(** [s.replace("", new)]: [new] before every character and at the end. *)
Fixpoint interleave (new s : string) : string :=
  match s with
  | "" => new
  | String c s' => new ++ String c (interleave new s')
  end.

(** The scan of [s.replace(old, new)] for a non-empty [old], left to right:
    [skip] counts the characters of a match still to be passed over. *)
Fixpoint replace_scan (old new : string) (skip : nat) (s : string) : string :=
  match s with
  | "" => ""
  | String c s' =>
      match skip with
      | S k => replace_scan old new k s'
      | O =>
          if String.prefix old s
          then new ++ replace_scan old new (String.length old - 1) s'
          else String c (replace_scan old new 0 s')
      end
  end.

(** [s.replace(old, new)]: every non-overlapping occurrence of [old], taken
    leftmost first, becomes [new]. *)
Definition replace (old new s : string) : string :=
  match old with
  | "" => interleave new s
  | _ => replace_scan old new 0 s
  end.

(** [''.join(ls)]. *)
Fixpoint concat (ls : list string) : string :=
  match ls with
  | [] => ""
  | x :: xs => x ++ concat xs
  end.

(** [all(p(c) for c in s)]. *)
Fixpoint all (p : ascii -> bool) (s : string) : bool :=
  match s with
  | "" => true
  | String c s' => p c && all p s'
  end.

(** [s.split(sep)[0]] for a one-character [sep]: the text before the first
    [sep], all of [s] when there is none. *)
Fixpoint before (sep : ascii) (s : string) : string :=
  match s with
  | "" => ""
  | String c s' => if Ascii.eqb c sep then "" else String c (before sep s')
  end.

(** [s.rfind(c) + 1]: one past the last [c], [0] when there is none. *)
Fixpoint rfind1 (c : ascii) (s : string) : nat :=
  match s with
  | "" => 0
  | String a s' =>
      match rfind1 c s' with
      | O => if Ascii.eqb a c then 1 else 0
      | S k => S (S k)
      end
  end.

(** [s.rstrip(c)]. *)
Fixpoint rstrip (c : ascii) (s : string) : string :=
  match s with
  | "" => ""
  | String a s' =>
      match rstrip c s' with
      | "" => if Ascii.eqb a c then "" else String a ""
      | r => String a r
      end
  end.

End Str.

(** ** posixpath *)

Module Path.

Definition sep : ascii := "/"%char.

(** [os.path.join(a, b)]. *)
Definition join (a b : string) : string :=
  if Str.startswith b "/" then b
  else if (a =? "") || Str.endswith a "/" then a ++ b
  else a ++ "/" ++ b.

(** [os.path.split(p)]. *)
Definition split (p : string) : string * string :=
  let i := Str.rfind1 sep p in
  let head := Str.take i p in
  let tail := Str.drop i p in
  if negb (head =? "") && negb (head =? Str.repeat sep (String.length head))
  then (Str.rstrip sep head, tail)
  else (head, tail).

(** [os.path.basename(p)]. *)
Definition basename (p : string) : string :=
  Str.drop (Str.rfind1 sep p) p.

End Path.

(** ** UTF-8 and MD5 (RFC 1321), as [hashlib.md5(b).hexdigest()] computes it *)

Module MD5.

Open Scope Z_scope.

(** [s.encode('utf-8')] on code points below U+0100; a byte is a [Z] in
    [0, 256). *)
Fixpoint encode_utf8 (s : string) : list Z :=
  match s with
  | EmptyString => []
  | String c s' =>
      let n := Z.of_N (N_of_ascii c) in
      if n <? 128 then n :: encode_utf8 s'
      else (192 + n / 64) :: (128 + n mod 64) :: encode_utf8 s'
  end.

Definition w32 (x : Z) : Z := x mod 2 ^ 32.

Definition rotl32 (x c : Z) : Z :=
  w32 (Z.lor (Z.shiftl x c) (Z.shiftr x (32 - c))).

Definition not32 (x : Z) : Z := Z.lxor x 0xffffffff.

(** The table T of the RFC: [floor (2^32 * abs (sin (i + 1)))]. *)
Definition K : list Z :=
  [ 0xd76aa478; 0xe8c7b756; 0x242070db; 0xc1bdceee; 0xf57c0faf; 0x4787c62a; 0xa8304613; 0xfd469501;
    0x698098d8; 0x8b44f7af; 0xffff5bb1; 0x895cd7be; 0x6b901122; 0xfd987193; 0xa679438e; 0x49b40821;
    0xf61e2562; 0xc040b340; 0x265e5a51; 0xe9b6c7aa; 0xd62f105d; 0x02441453; 0xd8a1e681; 0xe7d3fbc8;
    0x21e1cde6; 0xc33707d6; 0xf4d50d87; 0x455a14ed; 0xa9e3e905; 0xfcefa3f8; 0x676f02d9; 0x8d2a4c8a;
    0xfffa3942; 0x8771f681; 0x6d9d6122; 0xfde5380c; 0xa4beea44; 0x4bdecfa9; 0xf6bb4b60; 0xbebfbc70;
    0x289b7ec6; 0xeaa127fa; 0xd4ef3085; 0x04881d05; 0xd9d4d039; 0xe6db99e5; 0x1fa27cf8; 0xc4ac5665;
    0xf4292244; 0x432aff97; 0xab9423a7; 0xfc93a039; 0x655b59c3; 0x8f0ccc92; 0xffeff47d; 0x85845dd1;
    0x6fa87e4f; 0xfe2ce6e0; 0xa3014314; 0x4e0811a1; 0xf7537e82; 0xbd3af235; 0x2ad7d2bb; 0xeb86d391 ].

(** The per-step left rotations. *)
Definition shifts : list Z :=
  [ 7; 12; 17; 22;  7; 12; 17; 22;  7; 12; 17; 22;  7; 12; 17; 22;
    5;  9; 14; 20;  5;  9; 14; 20;  5;  9; 14; 20;  5;  9; 14; 20;
    4; 11; 16; 23;  4; 11; 16; 23;  4; 11; 16; 23;  4; 11; 16; 23;
    6; 10; 15; 21;  6; 10; 15; 21;  6; 10; 15; 21;  6; 10; 15; 21 ].

(** The four chaining words A, B, C, D. *)
Record state := State { wa : Z; wb : Z; wc : Z; wd : Z }.

Definition init : state :=
  State 0x67452301 0xefcdab89 0x98badcfe 0x10325476.

(** Step [i] of the 64 steps on one block [m] of sixteen words. *)
Definition step (m : list Z) (st : state) (i : nat) : state :=
  let '(State a b c d) := st in
  let zi := Z.of_nat i in
  let '(f, g) :=
    if zi <? 16 then (Z.lor (Z.land b c) (Z.land (not32 b) d), zi)
    else if zi <? 32 then
      (Z.lor (Z.land d b) (Z.land (not32 d) c), (5 * zi + 1) mod 16)
    else if zi <? 48 then (Z.lxor (Z.lxor b c) d, (3 * zi + 5) mod 16)
    else (Z.lxor c (Z.lor b (not32 d)), (7 * zi) mod 16) in
  let f' := w32 (f + a + nth i K 0 + nth (Z.to_nat g) m 0) in
  State d (w32 (b + rotl32 f' (nth i shifts 0))) b c.

(** A little-endian word from four bytes. *)
Definition word_of_bytes (bs : list Z) : Z :=
  nth 0 bs 0 + 2 ^ 8 * nth 1 bs 0 + 2 ^ 16 * nth 2 bs 0 + 2 ^ 24 * nth 3 bs 0.

(** The words of a byte string, four bytes each; [n] bounds their number. *)
Fixpoint words (n : nat) (bs : list Z) : list Z :=
  match n with
  | O => []
  | S k => word_of_bytes (firstn 4 bs) :: words k (skipn 4 bs)
  end.

(** One 64-byte block folded into the chaining state. *)
Definition compress (st : state) (block : list Z) : state :=
  let m := words 16 block in
  let '(State a b c d) := fold_left (step m) (seq 0 64) st in
  State (w32 (wa st + a)) (w32 (wb st + b)) (w32 (wc st + c)) (w32 (wd st + d)).

(** [n] as [k] little-endian bytes. *)
Fixpoint le_bytes (k : nat) (n : Z) : list Z :=
  match k with
  | O => []
  | S k' => n mod 256 :: le_bytes k' (n / 256)
  end.

(** The message, a 1 bit, zeros up to 56 mod 64, then the bit length on 64
    bits. *)
Definition pad (msg : list Z) : list Z :=
  let len := Z.of_nat (List.length msg) in
  msg ++ [128] ++ List.repeat 0 (Z.to_nat ((55 - len) mod 64))
      ++ le_bytes 8 ((8 * len) mod 2 ^ 64).

(** The blocks of the padded message in turn; [n] bounds their number. *)
Fixpoint blocks (n : nat) (st : state) (bs : list Z) : state :=
  match n, bs with
  | S k, _ :: _ => blocks k (compress st (firstn 64 bs)) (skipn 64 bs)
  | _, _ => st
  end.

Definition md5 (msg : list Z) : state :=
  let p := pad msg in
  blocks (List.length p) init p.

(** [digest()]: the sixteen bytes of A, B, C, D, low byte first. *)
Definition digest (st : state) : list Z :=
  le_bytes 4 (wa st) ++ le_bytes 4 (wb st) ++ le_bytes 4 (wc st)
    ++ le_bytes 4 (wd st).

Definition hex_digit (n : Z) : ascii :=
  nth (Z.to_nat n)
    (list_ascii_of_string "0123456789abcdef") "0"%char.

(** Two lowercase hexadecimal digits per byte. *)
Fixpoint hex (bs : list Z) : string :=
  match bs with
  | [] => EmptyString
  | b :: bs' => String (hex_digit (b / 16)) (String (hex_digit (b mod 16)) (hex bs'))
  end.

(** [hashlib.md5(s.encode('utf-8')).hexdigest()]. *)
Definition hexdigest (s : string) : string :=
  hex (digest (md5 (encode_utf8 s))).

End MD5.

(** ** Exceptions, results, dictionaries *)

(** The [suffix] argument of the file matcher by its run-time type: a [str],
    a [list] of [str], or a value of another type ([shown] is its [str()]). *)
Inductive suffix_arg :=
| SuffixStr (suffix : string)
| SuffixList (suffixes : list string)
| SuffixOther (shown : string).

Inductive exn :=
| TooManyFiles (suffix : suffix_arg) (directory : string)
    (* Exception("Should have no more than one '{}' file in {}") *)
| NoFileFound (suffix : suffix_arg) (directory : string)
    (* Exception("No file found with suffix '{}' in {}") *)
| KeyError (key : string)
| IndexError
| FileNotFoundError (path : string)
| IsADirectoryError (path : string)
| NotADirectoryError (path : string)
| DirectoryNotEmpty (path : string)    (* OSError, ENOTEMPTY *)
| JSONDecodeError.

Inductive result (A : Type) :=
| Ok (a : A)
| Raise (e : exn).

Arguments Ok {A} a.
Arguments Raise {A} e.

Definition result_bind {A B} (r : result A) (k : A -> result B) : result B :=
  match r with
  | Ok a => k a
  | Raise e => Raise e
  end.

Declare Scope result_scope.
Delimit Scope result_scope with result.
Notation "x <- c ;; k" := (result_bind c (fun x => k))
  (at level 61, c at next level, right associativity) : result_scope.

(** A [dict] with string keys, in insertion order. *)
Definition dict (V : Type) := list (string * V).

Fixpoint dict_get {V} (d : dict V) (k : string) : option V :=
  match d with
  | [] => None
  | (k', v) :: d' => if k' =? k then Some v else dict_get d' k
  end.

(** [d[k] = v]: an existing key keeps its place. *)
Fixpoint dict_set {V} (d : dict V) (k : string) (v : V) : dict V :=
  match d with
  | [] => [(k, v)]
  | (k', v') :: d' =>
      if k' =? k then (k', v) :: d' else (k', v') :: dict_set d' k v
  end.

(** [d[k]]. *)
Definition getitem {V} (d : dict V) (k : string) : result V :=
  match dict_get d k with
  | Some v => Ok v
  | None => Raise (KeyError k)
  end.

Definition keys {V} (d : dict V) : list string := map fst d.
Definition values {V} (d : dict V) : list V := map snd d.

(** ** The manifest

    What [json.load] returns for the project file, with the shape the tool
    reads: [assets] maps a key to an asset record, a record maps field names
    to strings; any of the fields can be absent. *)

Definition asset := dict string.

Record vott := Vott {
  assets : option (dict asset);
  sourceConnection : option (dict string);
  targetConnection : option (dict string);
  securityToken : option string
}.

(** [vott_dict[k]] for a top-level field. *)
Definition field {V} (k : string) (f : option V) : result V :=
  match f with
  | Some v => Ok v
  | None => Raise (KeyError k)
  end.

Definition mk_asset (id name path : string) : asset :=
  [("id", id); ("name", name); ("path", path)].

(** A project file with the given assets and nothing else. *)
Definition manifest_of (records : dict asset) : vott :=
  Vott (Some records) None None None.

(** ** File matcher *)

(** [glob._ishidden]. *)
Definition ishidden (name : string) : bool := Str.startswith name ".".

(** The names the pattern ["*" ++ suffix] matches: [*] takes any text but
    never a leading dot. *)
Definition matches (suffix name : string) : bool :=
  negb (ishidden name) && Str.endswith name suffix.

(** The directory part of the pattern, which [glob] puts before each name. *)
Definition pattern_dirname (directory suffix : string) : string :=
  fst (Path.split (Path.join directory ("*" ++ suffix))).

(** [glob.glob(os.path.join(directory, '*' + suffix))] over the entry names of
    [directory], for a [directory] and a [suffix] without the pattern
    characters [*], [?], [[] and a [suffix] without "/": the matching names in
    listing order, each joined to the directory part of the pattern. *)
Definition glob_star (names : list string) (directory suffix : string)
  : list string :=
  map (Path.join (pattern_dirname directory suffix))
    (filter (matches suffix) names).

(** [candidate_files] before the two tests on its length; [names] are the
    entries of [directory]. *)
Definition candidates (names : list string) (directory : string)
  (suffix : suffix_arg) : list string :=
  match suffix with
  | SuffixList suffixes =>
      flat_map (fun suffix => glob_star names directory suffix) suffixes
  | SuffixStr suffix => glob_star names directory suffix
  | SuffixOther _ => []
  end.

Definition get_single_file_with_suffix (names : list string)
  (directory : string) (suffix : suffix_arg) : result string :=
  let candidate_files := candidates names directory suffix in
  if (1 <? List.length candidate_files)%nat then
    Raise (TooManyFiles suffix directory)
  else if (List.length candidate_files =? 0)%nat then
    Raise (NoFileFound suffix directory)
  else
    match candidate_files with
    | final_file :: _ => Ok final_file
    | [] => Raise IndexError
    end.

(** The listed suffixes whose pattern matches [name], with repetitions. *)
Definition matching (suffixes : list string) (name : string) : list string :=
  filter (fun suffix => matches suffix name) suffixes.

(** The entries that some listed suffix matches. *)
Definition hits (names suffixes : list string) : list string :=
  filter (fun name => existsb (fun suffix => matches suffix name) suffixes)
    names.

(** [glob.has_magic]: the text holds one of the pattern characters [*], [?]
    and [[]. *)
Definition has_magic (s : string) : bool :=
  negb (Str.all (fun c => negb (Ascii.eqb c "*" || Ascii.eqb c "?"
                                  || Ascii.eqb c "[")) s).

(** A suffix that [glob_star] reads as [glob.glob] does: it has none of the
    pattern characters and no "/", so the pattern ["*" ++ suffix] stays in the
    directory and matches the names that end with the suffix. *)
Definition literal_suffix (suffix : string) : bool :=
  negb (has_magic suffix) && negb (Str.contains suffix "/").

(** ** Identifier mapper *)

Definition source_asset_path (directory_name name : string) : string :=
  "file:" ++ Path.join directory_name name.

(** The loop over the asset records, [old_to_new_ids] being the dictionary
    built so far. *)
Fixpoint map_assets (directory_name : string) (records : list asset)
  (old_to_new_ids : dict string) : result (dict string) :=
  match records with
  | [] => Ok old_to_new_ids
  | asset :: rest =>
      (name <- getitem asset "name" ;;
       id <- getitem asset "id" ;;
       map_assets directory_name rest
         (dict_set old_to_new_ids id
            (MD5.hexdigest (source_asset_path directory_name name))))%result
  end.

Definition map_old_vott_path_and_id_to_new (vott_dict : vott)
  (directory_name : string) : result (dict string) :=
  (assets <- field "assets" (assets vott_dict) ;;
   map_assets directory_name (values assets) [])%result.

(** The fields of a record that has them. *)
Definition get_default (a : asset) (k : string) : string :=
  match dict_get a k with
  | Some v => v
  | None => ""
  end.

Definition asset_id (a : asset) : string := get_default a "id".
Definition asset_name (a : asset) : string := get_default a "name".

(** A record with the two fields the mapper reads. *)
Definition has_id_and_name (a : asset) : Prop :=
  dict_get a "id" <> None /\ dict_get a "name" <> None.

(** The entry the mapper makes for one asset. *)
Definition new_entry (directory_name : string) (a : asset) : string * string :=
  (asset_id a, MD5.hexdigest (source_asset_path directory_name (asset_name a))).

Definition is_lower_hex (c : ascii) : bool :=
  existsb (Ascii.eqb c) (list_ascii_of_string "0123456789abcdef").

Definition is_hex (c : ascii) : bool :=
  existsb (Ascii.eqb c) (list_ascii_of_string "0123456789abcdefABCDEF").

(** A name of the form <32 hexadecimal digits>-asset.json. *)
Definition hex32_asset_name (name : string) : bool :=
  (String.length name =? 43)%nat
  && Str.all is_hex (Str.take 32 name)
  && (Str.drop 32 name =? "-asset.json").

(** ** Rewriting a line *)

(** [re.sub(' ', '%20', s)]: the pattern is the literal space. *)
Definition npm_ready (s : string) : string := Str.replace " " "%20" s.

(** The loop over [old_to_new_ids.items()]. *)
Definition rewrite_ids (old_to_new_ids : dict string) (line : string) : string :=
  fold_left (fun line id_pair => Str.replace (fst id_pair) (snd id_pair) line)
    old_to_new_ids line.

(** The body of the loop over the input lines. *)
Definition rewrite_line (old_to_new_ids : dict string)
  (old_source_directory npm_ready_new_source_directory line : string) : string :=
  Str.replace old_source_directory npm_ready_new_source_directory
    (rewrite_ids old_to_new_ids line).

(** [os.path.split(path_value[len('file:'):])[0]]. *)
Definition old_source_directory_of (path_value : string) : string :=
  fst (Path.split (Str.drop 5 path_value)).

(** ** The metadata directory

    The entries of the target directory by name, in listing order, with
    pairwise distinct names. Every path the tool opens or renames is
    [join dirname name] for an entry name, so an entry is found by the base
    name of the path. Permissions and text decoding are not part of the
    state. *)

Inductive node :=
| File (content : string)
| Dir (empty : bool).

Definition fs := dict node.

Definition listdir (d : fs) : list string := keys d.

Definition entry (d : fs) (path : string) : option node :=
  dict_get d (Path.basename path).

(** [os.path.isfile(path)]. *)
Definition isfile (d : fs) (path : string) : bool :=
  match entry d path with
  | Some (File _) => true
  | _ => false
  end.

(** The entry [src] takes the name [dst]; an entry already called [dst] goes. *)
Definition fs_move (src dst : string) (d : fs) : fs :=
  map (fun e => if fst e =? src then (dst, snd e) else e)
    (filter (fun e => negb (fst e =? dst)) d).

(** Computations on the directory that can raise. *)
Definition M (A : Type) := fs -> result A * fs.

Definition ret {A} (a : A) : M A := fun d => (Ok a, d).
Definition raise {A} (e : exn) : M A := fun d => (Raise e, d).
Definition lift {A} (r : result A) : M A := fun d => (r, d).

Definition bind {A B} (m : M A) (k : A -> M B) : M B :=
  fun d =>
    match m d with
    | (Ok a, d') => k a d'
    | (Raise e, d') => (Raise e, d')
    end.

Declare Scope io_scope.
Delimit Scope io_scope with io.
Notation "x <- c ;; k" := (bind c (fun x => k))
  (at level 61, c at next level, right associativity) : io_scope.
Notation "c ;; k" := (bind c (fun _ => k))
  (at level 61, right associativity) : io_scope.

Definition get_names : M (list string) := fun d => (Ok (listdir d), d).

(** [os.rename(src, dst)] on POSIX. *)
Definition os_rename (src dst : string) : M unit :=
  fun d =>
    let s := Path.basename src in
    let t := Path.basename dst in
    match dict_get d s with
    | None => (Raise (FileNotFoundError src), d)
    | Some from =>
        if s =? t then (Ok tt, d)
        else
          match dict_get d t, from with
          | None, _ => (Ok tt, fs_move s t d)
          | Some (File _), File _ => (Ok tt, fs_move s t d)
          | Some (Dir _), File _ => (Raise (IsADirectoryError dst), d)
          | Some (File _), Dir _ => (Raise (NotADirectoryError dst), d)
          | Some (Dir true), Dir _ => (Ok tt, fs_move s t d)
          | Some (Dir false), Dir _ => (Raise (DirectoryNotEmpty dst), d)
          end
    end.

(** [open(path, 'r').read()]. *)
Definition read_text (path : string) : M string :=
  fun d =>
    match entry d path with
    | Some (File content) => (Ok content, d)
    | Some (Dir _) => (Raise (IsADirectoryError path), d)
    | None => (Raise (FileNotFoundError path), d)
    end.

(** [open(path, 'w').write(content)]: the file is made, or its text
    replaced. *)
Definition write_text (path content : string) : M unit :=
  fun d => (Ok tt, dict_set d (Path.basename path) (File content)).

Definition fs_remove (name : string) (d : fs) : fs :=
  filter (fun e => negb (fst e =? name)) d.

(** [os.unlink(path)] inside [try: ... except OSError: pass]: a regular file
    goes, a directory or a missing entry is passed over. *)
Definition try_unlink (path : string) : M unit :=
  fun d =>
    match entry d path with
    | Some (File _) => (Ok tt, fs_remove (Path.basename path) d)
    | _ => (Ok tt, d)
    end.

(** ** Rewrite engine *)

(** Pass 1: the loop over the paths [glob.glob] returned. *)
Fixpoint rename_assets (target_directory : string)
  (old_to_new_ids : dict string) (paths : list string) : M unit :=
  match paths with
  | [] => ret tt
  | old_asset_path :: rest =>
      (let old_asset_file := Path.basename old_asset_path in
       let old_asset_id := Str.before "-" old_asset_file in
       new_id <- lift (getitem old_to_new_ids old_asset_id) ;;
       os_rename old_asset_path
         (Path.join target_directory (new_id ++ "-asset.json")) ;;
       rename_assets target_directory old_to_new_ids rest)%io
  end.

(** Pass 1 on the directory as it stands. *)
Definition pass1 (target_directory : string) (old_to_new_ids : dict string)
  : M unit :=
  (names <- get_names ;;
   rename_assets target_directory old_to_new_ids
     (glob_star names target_directory "-asset.json"))%io.

(** The name Pass 1 gives to the entry [name]: the text before its first "-"
    looked up, then "-asset.json". *)
Definition renamed (old_to_new_ids : dict string) (name : string) : string :=
  match dict_get old_to_new_ids (Str.before "-" name) with
  | Some new_id => new_id ++ "-asset.json"
  | None => name
  end.

Definition LF : ascii := "010"%char.
Definition CR : ascii := "013"%char.

(** Reading in text mode: "\r\n" and "\r" arrive as "\n". *)
Fixpoint universal_newlines (s : string) : string :=
  match s with
  | "" => ""
  | String c s' =>
      if Ascii.eqb c CR then
        match s' with
        | String c' s'' =>
            if Ascii.eqb c' LF then String LF (universal_newlines s'')
            else String LF (universal_newlines s')
        | "" => String LF ""
        end
      else String c (universal_newlines s')
  end.

(** The lines of a text, each with its "\n" when it has one. *)
Fixpoint lines (s : string) : list string :=
  match s with
  | "" => []
  | String c s' =>
      if Ascii.eqb c LF then String c "" :: lines s'
      else
        match lines s' with
        | [] => [String c ""]
        | l :: ls => String c l :: ls
        end
  end.

(** What [fileinput] with [inplace=True] leaves in one file when every line
    read is written back rewritten. *)
Definition rewrite_content (old_to_new_ids : dict string)
  (old_source_directory npm_ready_new_source_directory content : string)
  : string :=
  Str.concat
    (map (rewrite_line old_to_new_ids old_source_directory
            npm_ready_new_source_directory)
       (lines (universal_newlines content))).

(** One file under [fileinput] with [inplace=True] and no backup extension
    given: a file left at the backup name <file>.bak is unlinked, the file is
    renamed to that name and read from there, the lines written go to a new
    file of the first name, and the backup is unlinked when the file is
    done. *)
Definition inplace (f : string) (rewrite : string -> string) : M unit :=
  (let backup := f ++ ".bak" in
   try_unlink backup ;;
   os_rename f backup ;;
   content <- read_text backup ;;
   write_text f (rewrite content) ;;
   try_unlink backup)%io.

(** Pass 2: the files in turn. ([fileinput] reads the standard input when
    it is given no file at all, and for the path "-"; neither comes from
    [main], which has found the project file among the regular files and
    joins every name to the directory path. The directory is then as
    untouched as here.) *)
Fixpoint rewrite_files (old_to_new_ids : dict string)
  (old_source_directory npm_ready_new_source_directory : string)
  (files : list string) : M unit :=
  match files with
  | [] => ret tt
  | f :: rest =>
      (inplace f (rewrite_content old_to_new_ids old_source_directory
                    npm_ready_new_source_directory) ;;
       rewrite_files old_to_new_ids old_source_directory
         npm_ready_new_source_directory rest)%io
  end.

(** Pass 2 on the directory as it stands: the entries [*] matches that are
    regular files. *)
Definition pass2 (target_directory : string) (old_to_new_ids : dict string)
  (old_source_directory npm_ready_new_source_directory : string) : M unit :=
  (names <- get_names ;;
   files <- (fun d => (Ok (filter (isfile d)
                             (glob_star names target_directory "")), d)) ;;
   rewrite_files old_to_new_ids old_source_directory
     npm_ready_new_source_directory files)%io.

(** ** The command *)

Section Main.

(** [json.load] on the text of the project file. *)
Variable json_load : string -> result vott.

Definition main (new_source_directory target_directory : string) : M unit :=
  (let npm_ready_new_source_directory := npm_ready new_source_directory in
   names <- get_names ;;
   vott_file <- lift (get_single_file_with_suffix names target_directory
                        (SuffixStr ".vott")) ;;
   text <- read_text vott_file ;;
   vott_dict <- lift (json_load text) ;;
   assets <- lift (field "assets" (assets vott_dict)) ;;
   first <- lift (match values assets with
                  | a :: _ => Ok a
                  | [] => Raise IndexError
                  end) ;;
   path_value <- lift (getitem first "path") ;;
   let old_source_directory := old_source_directory_of path_value in
   old_to_new_ids <- lift (map_old_vott_path_and_id_to_new vott_dict
                             npm_ready_new_source_directory) ;;
   pass1 target_directory old_to_new_ids ;;
   pass2 target_directory old_to_new_ids old_source_directory
     npm_ready_new_source_directory ;;
   source <- lift (field "sourceConnection" (sourceConnection vott_dict)) ;;
   _ <- lift (getitem source "name") ;;
   target <- lift (field "targetConnection" (targetConnection vott_dict)) ;;
   _ <- lift (getitem target "name") ;;
   _ <- lift (field "securityToken" (securityToken vott_dict)) ;;
   ret tt)%io.

End Main.

(** The suffixes an argument asks for. *)
Definition listed (suffix : suffix_arg) : list string :=
  match suffix with
  | SuffixStr s => [s]
  | SuffixList l => l
  | SuffixOther _ => []
  end.

(** The dictionary the mapper has after the records [l], begun with [acc]. *)
Definition mapped (directory_name : string) (l : list asset)
  (acc : dict string) : dict string :=
  fold_left
    (fun m a => dict_set m (fst (new_entry directory_name a))
                  (snd (new_entry directory_name a))) l acc.

(** The values [main] reads from the manifest for its last message, after
    the two passes. *)
Definition closing (vott_dict : vott) : result unit :=
  (source <- field "sourceConnection" (sourceConnection vott_dict) ;;
   _ <- getitem source "name" ;;
   target <- field "targetConnection" (targetConnection vott_dict) ;;
   _ <- getitem target "name" ;;
   _ <- field "securityToken" (securityToken vott_dict) ;;
   Ok tt)%result.

(** What Pass 2 makes of the entry [name]. *)
Definition rewritten (old_to_new_ids : dict string)
  (old_source_directory npm_ready_new_source_directory name : string)
  (e : node) : node :=
  match e with
  | File content =>
      if ishidden name then File content
      else File (rewrite_content old_to_new_ids old_source_directory
                   npm_ready_new_source_directory content)
  | Dir empty => Dir empty
  end.

(** ** Sample data *)

Definition id_a : string := "aaaaaaaaaaaaaaaaaaaaaaaaaaaaaaaa".
Definition id_b : string := "bbbbbbbbbbbbbbbbbbbbbbbbbbbbbbbb".
Definition id_c : string := "cccccccccccccccccccccccccccccccc".

Definition id_a_record : asset :=
  mk_asset id_a "cat.jpg" "file:/home/alice/imgs/cat.jpg".

Definition one_asset_dir : fs :=
  [("project.vott", File "{ }"); (id_a ++ "-asset.json", File "regions")].

(** The name cafe.jpg with an acute accent on its fourth character, U+00E9,
    which UTF-8 encodes in two bytes. *)
Definition cafe_jpg : string := "caf" ++ String "233"%char ".jpg".

(** Two assets, the second with a name outside ASCII. *)
Definition cat_and_cafe : dict asset :=
  [(id_a, id_a_record);
   (id_b, mk_asset id_b cafe_jpg ("file:/home/alice/imgs/" ++ cafe_jpg))].

(** A record whose name begins with "/", and one without a name. *)
Definition rooted_name : dict asset :=
  [(id_a, mk_asset id_a "/cat.jpg" "file:/home/alice/imgs/cat.jpg")].

Definition nameless : dict asset :=
  [(id_a, [("id", id_a); ("path", "file:/home/alice/imgs/cat.jpg")])].

(** Two assets of distinct ids and distinct names, one name beginning with
    "/". *)
Definition slash_names : dict asset :=
  [(id_a, mk_asset id_a "a" "file:/old/a");
   (id_b, mk_asset id_b "/a" "file:/old/a")].


(** Two records with one id. *)
Definition id_a_twice : dict asset :=
  [("k1", mk_asset id_a "cat.jpg" "file:/old/cat.jpg");
   ("k2", mk_asset id_a "dog.jpg" "file:/old/dog.jpg")].

(** Two files with one identifier in their names. *)
Definition shared_prefix_dir : fs :=
  [(id_a ++ "-asset.json", File "first");
   (id_a ++ "-copy-asset.json", File "second");
   ("project.vott", File "{ }")].

(** A project of one asset as it stands before the run: the project file and
    the file of the asset, each telling the id and the path. *)
Definition cat_project : fs :=
  [("project.vott",
    File ("id " ++ id_a ++ " path file:/home/alice/imgs/cat.jpg"));
   (id_a ++ "-asset.json",
    File ("asset " ++ id_a ++ String LF "file:/home/alice/imgs/cat.jpg"
            ++ String LF ""));
   (".cache", File id_a);
   ("exports", Dir false)].

Definition cat_manifest : vott :=
  Vott (Some [(id_a, id_a_record)])
    (Some [("name", "source")]) (Some [("name", "target")]) (Some "token").

(** The same manifest without its security token. *)
Definition cat_manifest_no_token : vott :=
  Vott (Some [(id_a, id_a_record)])
    (Some [("name", "source")]) (Some [("name", "target")]) None.

(** * Properties *)

(** ** Strings *)

Lemma append_nil_r (s : string) : s ++ "" = s.
Proof. induction s; simpl; congruence. Qed.

Lemma append_assoc (a b c : string) : (a ++ b) ++ c = a ++ b ++ c.
Proof. induction a; simpl; congruence. Qed.

Lemma length_append (a b : string) :
  String.length (a ++ b) = String.length a + String.length b.
Proof. induction a; simpl; congruence. Qed.

Lemma append_inv_head (a b c : string) : a ++ b = a ++ c -> b = c.
Proof. induction a; simpl; intros H; [assumption | injection H; auto]. Qed.

Lemma prefix_nil (s : string) : String.prefix "" s = true.
Proof. destruct s; reflexivity. Qed.

Lemma prefix_cons (a b : ascii) (p s : string) :
  String.prefix (String a p) (String b s)
  = if Ascii.eqb a b then String.prefix p s else false.
Proof.
  simpl. destruct (ascii_dec a b) as [->|Hne].
  - now rewrite Ascii.eqb_refl.
  - apply Ascii.eqb_neq in Hne. now rewrite Hne.
Qed.

Lemma prefix_append (p s : string) : String.prefix p (p ++ s) = true.
Proof.
  induction p as [|a p IH]; [apply prefix_nil|].
  change (String a p ++ s) with (String a (p ++ s)).
  now rewrite prefix_cons, Ascii.eqb_refl.
Qed.

Lemma prefix_split (p s : string) :
  String.prefix p s = true -> exists t, s = p ++ t.
Proof.
  revert s. induction p as [|a p IH]; intros s H.
  - now exists s.
  - destruct s as [|b s]; [discriminate|].
    rewrite prefix_cons in H.
    destruct (Ascii.eqb a b) eqn:E; [|discriminate].
    apply Ascii.eqb_eq in E. subst b.
    destruct (IH _ H) as [t ->]. now exists t.
Qed.

Lemma endswith_append (p suf : string) : Str.endswith (p ++ suf) suf = true.
Proof.
  induction p as [|a p IH]; simpl.
  - change ("" ++ suf) with suf.
    destruct suf; cbn [Str.endswith]; now rewrite String.eqb_refl.
  - rewrite IH. apply orb_true_r.
Qed.

Lemma endswith_split (s suf : string) :
  Str.endswith s suf = true -> exists p, s = p ++ suf.
Proof.
  induction s as [|a s IH]; cbn [Str.endswith]; intros H.
  - rewrite orb_false_r in H. apply String.eqb_eq in H. now exists "".
  - apply orb_true_iff in H. destruct H as [H|H].
    + apply String.eqb_eq in H. now exists "".
    + destruct (IH H) as [p ->]. now exists (String a p).
Qed.

Lemma contains_nil (s : string) : Str.contains s "" = true.
Proof. destruct s; reflexivity. Qed.

Lemma contains_cons (c : ascii) (s old : string) :
  Str.contains (String c s) old = false ->
  String.prefix old (String c s) = false /\ Str.contains s old = false.
Proof. simpl. intros H. now apply orb_false_iff in H. Qed.

(** ** [str.replace] *)

Lemma replace_scan_exhaust (old new s : string) (k : nat) :
  String.length s <= k -> Str.replace_scan old new k s = "".
Proof.
  revert k. induction s as [|c s IH]; intros k H; [reflexivity|].
  destruct k as [|k]; simpl in *; [lia|]. apply IH. lia.
Qed.

(** The whole text being the pattern, the result is the replacement. *)
Lemma replace_self (old new : string) :
  old <> "" -> Str.replace old new old = new.
Proof.
  destruct old as [|c o]; [congruence|]. intros _.
  unfold Str.replace.
  change (Str.replace_scan (String c o) new 0 (String c o))
    with (if String.prefix (String c o) (String c o)
          then new ++ Str.replace_scan (String c o) new
                        (String.length (String c o) - 1) o
          else String c (Str.replace_scan (String c o) new 0 o)).
  rewrite <- (append_nil_r (String c o)) at 2.
  rewrite prefix_append.
  rewrite replace_scan_exhaust by (simpl; lia).
  apply append_nil_r.
Qed.

Lemma replace_scan_absent (old new s : string) :
  Str.contains s old = false -> Str.replace_scan old new 0 s = s.
Proof.
  induction s as [|c s IH]; intros H; [reflexivity|].
  apply contains_cons in H. destruct H as [Hp Hc].
  cbn [Str.replace_scan]. rewrite Hp. now rewrite IH.
Qed.

(** A text without the pattern is left as it is. *)
Lemma replace_absent (old new s : string) :
  Str.contains s old = false -> Str.replace old new s = s.
Proof.
  intros H. destruct old as [|c o].
  - now rewrite contains_nil in H.
  - now apply replace_scan_absent.
Qed.

Lemma take_drop (k : nat) (s : string) : Str.take k s ++ Str.drop k s = s.
Proof.
  revert s. induction k as [|k IH]; intros [|c s]; cbn; try reflexivity.
  now rewrite IH.
Qed.

(** Whether [p] begins a text is settled by the first [length p] characters
    of the text. *)
Lemma prefix_long (p x y : string) :
  String.length p <= String.length x ->
  String.prefix p (x ++ y) = String.prefix p x.
Proof.
  revert x. induction p as [|a p IH]; intros x H.
  - now rewrite !prefix_nil.
  - destruct x as [|b x]; [simpl in H; lia|].
    change (String b x ++ y) with (String b (x ++ y)).
    rewrite !prefix_cons. destruct (Ascii.eqb a b); [|reflexivity].
    apply IH. simpl in H. lia.
Qed.

Lemma take_length (k : nat) (s : string) :
  k <= String.length s -> String.length (Str.take k s) = k.
Proof.
  revert s. induction k as [|k IH]; intros [|c s] H; simpl in *;
    try reflexivity; try lia.
  rewrite IH; [reflexivity | lia].
Qed.

Lemma replace_scan_skip (old new a q : string) :
  Str.replace_scan old new (String.length a) (a ++ q)
  = Str.replace_scan old new 0 q.
Proof. induction a as [|c a IH]; [reflexivity | exact IH]. Qed.

Lemma replace_scan_match (old new q : string) :
  old <> "" ->
  Str.replace_scan old new 0 (old ++ q) = new ++ Str.replace_scan old new 0 q.
Proof.
  destruct old as [|c o]; [congruence|]. intros _.
  change (String c o ++ q) with (String c (o ++ q)).
  cbn [Str.replace_scan].
  change (String c (o ++ q)) with (String c o ++ q).
  rewrite prefix_append.
  replace (String.length (String c o) - 1) with (String.length o)
    by (simpl; lia).
  now rewrite replace_scan_skip.
Qed.

(** The leftmost occurrence: when [old] occurs in [p ++ old ++ q] nowhere
    before the end of [p], the text up to it is kept, [new] stands for it
    and the scan goes on after it. *)
Lemma replace_leftmost (old new p q : string) :
  old <> "" ->
  Str.contains (p ++ Str.take (String.length old - 1) old) old = false ->
  Str.replace old new (p ++ old ++ q) = p ++ new ++ Str.replace old new q.
Proof.
  intros Hold. assert (E : forall s, Str.replace old new s
                                     = Str.replace_scan old new 0 s).
  { intros s. destruct old; [congruence | reflexivity]. }
  rewrite !E. clear E.
  induction p as [|c p IH]; intros H.
  - cbn [append]. now apply replace_scan_match.
  - change (String c p ++ Str.take (String.length old - 1) old)
      with (String c (p ++ Str.take (String.length old - 1) old)) in H.
    apply contains_cons in H. destruct H as [Hp Hc].
    change (String c p ++ old ++ q) with (String c (p ++ old ++ q)).
    cbn [Str.replace_scan].
    assert (Hpre : String.prefix old (String c (p ++ old ++ q)) = false).
    { rewrite <- Hp.
      rewrite <- (take_drop (String.length old - 1) old) at 2.
      rewrite append_assoc, <- (append_assoc p).
      change (String c ((p ++ Str.take (String.length old - 1) old)
                          ++ Str.drop (String.length old - 1) old ++ q))
        with (String c (p ++ Str.take (String.length old - 1) old)
                ++ Str.drop (String.length old - 1) old ++ q).
      apply prefix_long. cbn [String.length].
      rewrite length_append, take_length by lia.
      destruct old; [congruence | simpl; lia]. }
    rewrite Hpre, (IH Hc). reflexivity.
Qed.

(** ** Path normaliser *)

Lemma npm_ready_cons (c : ascii) (s : string) :
  npm_ready (String c s)
  = if Ascii.eqb " " c then "%20" ++ npm_ready s else String c (npm_ready s).
Proof.
  unfold npm_ready, Str.replace. cbn [Str.replace_scan].
  rewrite prefix_cons, prefix_nil. now destruct (Ascii.eqb " " c).
Qed.

Lemma npm_ready_no_space (s : string) : Str.contains (npm_ready s) " " = false.
Proof.
  induction s as [|c s IH]; [reflexivity|].
  rewrite npm_ready_cons. destruct (Ascii.eqb " " c) eqn:E.
  - cbn. exact IH.
  - cbn [Str.contains]. rewrite prefix_cons, E. exact IH.
Qed.

(** C7. The path canonicalisation, every space replaced by %20, is
    idempotent: on every string, applying it twice gives what applying it once
    gives. *)
Theorem npm_ready_idempotent (s : string) :
  npm_ready (npm_ready s) = npm_ready s.
Proof. apply replace_absent, npm_ready_no_space. Qed.

(** ** Pass 2, the identifiers of a line *)

Lemma rewrite_ids_app (m1 m2 : dict string) (line : string) :
  rewrite_ids (m1 ++ m2)%list line = rewrite_ids m2 (rewrite_ids m1 line).
Proof. apply fold_left_app. Qed.

Lemma rewrite_ids_absent (m : dict string) (line : string) :
  (forall o, In o (keys m) -> Str.contains line o = false) ->
  rewrite_ids m line = line.
Proof.
  induction m as [|[o n] m IH]; intros H; [reflexivity|].
  cbn [rewrite_ids fold_left fst snd].
  rewrite replace_absent by (apply H; now left).
  apply IH. intros o' Ho'. apply H. now right.
Qed.

(** C1, as the code has it. The entries of the mapping are applied one after
    the other in the order of the mapping, each to the line as the entries
    before it left it: the entry for [a] replaces the occurrences of [a] in
    the line rewritten by the earlier entries, leftmost first and without
    overlap, and the later entries work on its result. So a line that is the
    identifier [a], mapped to [b], with [b] mapped to [c] by a later entry,
    ends as [c]: the [b] substituted for [a] is replaced in turn. A line in
    which no old identifier occurs is left as it is. *)
Theorem rewrite_ids_in_order (m1 m2 : dict string) (a b c line p q : string) :
  a <> "" -> b <> "" ->
  rewrite_ids (m1 ++ (a, b) :: m2)%list line
    = rewrite_ids m2 (Str.replace a b (rewrite_ids m1 line))
  /\ (Str.contains (p ++ Str.take (String.length a - 1) a) a = false ->
      Str.replace a b (p ++ a ++ q) = p ++ b ++ Str.replace a b q)
  /\ (Str.contains q a = false -> Str.replace a b q = q)
  /\ rewrite_ids [(a, b); (b, c)] a = c
  /\ ((forall o, In o (keys m1) -> Str.contains line o = false) ->
      rewrite_ids m1 line = line).
Proof.
  intros Ha Hb. split; [|split; [|split; [|split]]].
  - now rewrite rewrite_ids_app.
  - now apply replace_leftmost.
  - apply replace_absent.
  - cbn [rewrite_ids fold_left fst snd].
    now rewrite (replace_self a b Ha), (replace_self b c Hb).
  - apply rewrite_ids_absent.
Qed.

Lemma rewrite_ids_in_order_witness :
  Str.replace id_a id_b ("asset " ++ id_a ++ " done")
    = "asset " ++ id_b ++ " done"
  /\ rewrite_ids [(id_a, id_b); (id_b, id_c)] id_a = id_c.
Proof.
  destruct (rewrite_ids_in_order [] [(id_b, id_c)] id_a id_b id_c "x"
              "asset " " done") as [_ [H1 [H2 [H3 _]]]];
    try discriminate.
  split; [|exact H3].
  rewrite H1 by reflexivity. rewrite H2 by reflexivity. reflexivity.
Defined.

(** C1, as stated, fails. With the entries [id_a -> id_b] and [id_b -> id_c]
    in this order, the line "asset id_a" has no occurrence of [id_b]; the
    first entry puts [id_b] in place of [id_a], and the second entry replaces
    that [id_b]: the line ends with [id_c], not with [id_b]. *)
Lemma rewrite_ids_reprocesses :
  let ids := [(id_a, id_b); (id_b, id_c)] in
  let line := "asset " ++ id_a in
  Str.contains line id_b = false
  /\ Str.replace id_a id_b line = "asset " ++ id_b
  /\ rewrite_ids ids line = "asset " ++ id_c
  /\ rewrite_ids ids line <> "asset " ++ id_b.
Proof. repeat split; try reflexivity. vm_compute. discriminate. Qed.

(** ** Paths without a separator *)

Lemma rfind1_absent (p : string) :
  Str.contains p "/" = false -> Str.rfind1 Path.sep p = 0.
Proof.
  induction p as [|c p IH]; intros H; [reflexivity|].
  apply contains_cons in H. destruct H as [Hp Hc].
  rewrite prefix_cons, prefix_nil in Hp.
  cbn [Str.rfind1]. rewrite (IH Hc), Ascii.eqb_sym. unfold Path.sep.
  now destruct (Ascii.eqb "/" c).
Qed.



(** ** File matcher *)

Lemma matching_visible (suffixes : list string) (name : string) :
  ishidden name = false ->
  matching suffixes name = filter (Str.endswith name) suffixes.
Proof.
  intros H. unfold matching, matches. rewrite H. apply filter_ext.
  reflexivity.
Qed.

Lemma matcher_too_many (names : list string) (directory : string)
  (suffix : suffix_arg) :
  2 <= List.length (candidates names directory suffix) ->
  get_single_file_with_suffix names directory suffix
  = Raise (TooManyFiles suffix directory).
Proof.
  intros H. unfold get_single_file_with_suffix.
  destruct (Nat.ltb_spec 1 (List.length (candidates names directory suffix)));
    [reflexivity | lia].
Qed.

Lemma matcher_none (names : list string) (directory : string)
  (suffix : suffix_arg) :
  candidates names directory suffix = [] ->
  get_single_file_with_suffix names directory suffix
  = Raise (NoFileFound suffix directory).
Proof. intros H. unfold get_single_file_with_suffix. now rewrite H. Qed.

Lemma matcher_one (names : list string) (directory path : string)
  (suffix : suffix_arg) :
  candidates names directory suffix = [path] ->
  get_single_file_with_suffix names directory suffix = Ok path.
Proof. intros H. unfold get_single_file_with_suffix. now rewrite H. Qed.

Lemma list_sum_step (x : nat) (l : list nat) :
  list_sum (x :: l) = x + list_sum l.
Proof. reflexivity. Qed.

Lemma matching_cons_sum (s : string) (ss names : list string) :
  list_sum (map (fun n => List.length (matching (s :: ss) n)) names)
  = List.length (filter (matches s) names)
    + list_sum (map (fun n => List.length (matching ss n)) names).
Proof.
  induction names as [|n names IH]; [reflexivity|].
  cbn [map filter]. rewrite !list_sum_step, IH. unfold matching at 1.
  cbn [filter]. fold (matching ss n).
  destruct (matches s n); cbn [List.length]; lia.
Qed.

(** The candidates are as many as the pairs of an entry and a listed suffix
    that matches it. *)
Lemma candidates_length (names : list string) (directory : string)
  (suffixes : list string) :
  List.length (candidates names directory (SuffixList suffixes))
  = list_sum (map (fun n => List.length (matching suffixes n)) names).
Proof.
  unfold candidates. induction suffixes as [|s ss IH].
  - cbn. induction names; [reflexivity | assumption].
  - cbn [flat_map]. rewrite length_app, IH, matching_cons_sum.
    unfold glob_star. now rewrite length_map.
Qed.

Lemma existsb_matching (suffixes : list string) (n : string) :
  existsb (fun s => matches s n) suffixes
  = negb (List.length (matching suffixes n) =? 0)%nat.
Proof.
  unfold matching. induction suffixes as [|s ss IH]; [reflexivity|].
  cbn [existsb filter]. destruct (matches s n); [reflexivity | exact IH].
Qed.

Lemma hits_length (names suffixes : list string) :
  (forall n, In n names -> List.length (matching suffixes n) <= 1) ->
  list_sum (map (fun n => List.length (matching suffixes n)) names)
  = List.length (hits names suffixes).
Proof.
  unfold hits. induction names as [|n names IH]; intros H; [reflexivity|].
  cbn [map filter]. rewrite list_sum_step, existsb_matching.
  rewrite IH by (intros m Hm; apply H; now right).
  pose proof (H n (or_introl eq_refl)) as Hn.
  destruct (List.length (matching suffixes n)) as [|[|k]]; cbn; lia.
Qed.

(** C4, the failing input. The directory /proj holds the one entry a.tar.gz
    and the suffixes are .gz and .tar.gz: exactly one entry has a name that
    ends with one of the suffixes, and the matcher raises the error for more
    than one file, the path being in the candidate list once for each of the
    two suffixes. With either suffix given alone as a string the file is
    returned. *)
Theorem overlapping_suffixes_one_file :
  let suffixes := [".gz"; ".tar.gz"] in
  hits ["a.tar.gz"] suffixes = ["a.tar.gz"]
  /\ candidates ["a.tar.gz"] "/proj" (SuffixList suffixes)
     = ["/proj/a.tar.gz"; "/proj/a.tar.gz"]
  /\ get_single_file_with_suffix ["a.tar.gz"] "/proj" (SuffixList suffixes)
     = Raise (TooManyFiles (SuffixList suffixes) "/proj")
  /\ get_single_file_with_suffix ["a.tar.gz"] "/proj" (SuffixStr ".gz")
     = Ok "/proj/a.tar.gz"
  /\ get_single_file_with_suffix ["a.tar.gz"] "/proj" (SuffixStr ".tar.gz")
     = Ok "/proj/a.tar.gz".
Proof. repeat split. Qed.

(** C10. For a suffix that is neither a string nor a list no pattern is
    tried: the candidate list stays empty and the call raises the error for
    no file found, which names the suffix and the directory. *)
Theorem other_suffix_not_found (names : list string)
  (directory shown : string) :
  candidates names directory (SuffixOther shown) = []
  /\ get_single_file_with_suffix names directory (SuffixOther shown)
     = Raise (NoFileFound (SuffixOther shown) directory).
Proof. split; reflexivity. Qed.

(** ** Dictionaries *)

Lemma dict_get_none {V} (d : dict V) (k : string) :
  dict_get d k = None <-> ~ In k (keys d).
Proof.
  induction d as [|[k' v] d IH]; cbn [dict_get keys map fst In].
  - tauto.
  - destruct (String.eqb_spec k' k) as [->|Hne].
    + split; [discriminate | intros H; exfalso; apply H; now left].
    + unfold keys in IH. rewrite IH. tauto.
Qed.

Lemma dict_set_fresh {V} (d : dict V) (k : string) (v : V) :
  ~ In k (keys d) -> dict_set d k v = (d ++ [(k, v)])%list.
Proof.
  induction d as [|[k' v'] d IH]; cbn [dict_set keys map fst In app];
    intros H; [reflexivity|].
  destruct (String.eqb_spec k' k) as [->|Hne]; [tauto|].
  rewrite IH; [reflexivity | tauto].
Qed.

Lemma dict_get_in {V} (d : dict V) (k : string) (v : V) :
  NoDup (keys d) -> In (k, v) d -> dict_get d k = Some v.
Proof.
  induction d as [|[k' v'] d IH]; cbn [dict_get keys map fst In];
    intros Hnd Hin; [contradiction|].
  inversion Hnd as [|? ? Hk Hd]; subst.
  destruct Hin as [E|Hin].
  - injection E as -> ->. now rewrite String.eqb_refl.
  - destruct (String.eqb_spec k' k) as [->|Hne].
    + exfalso. apply Hk. change (In k (map fst d)).
      apply in_map_iff. now exists (k, v).
    + now apply IH.
Qed.

(** ** MD5 output *)

Lemma le_bytes_length (k : nat) (n : Z) : List.length (MD5.le_bytes k n) = k.
Proof. revert n. induction k; intros n; simpl; [reflexivity | now rewrite IHk]. Qed.

Lemma digest_length (st : MD5.state) : List.length (MD5.digest st) = 16.
Proof. unfold MD5.digest. now rewrite !length_app, !le_bytes_length. Qed.

Lemma hex_length (bs : list Z) : String.length (MD5.hex bs) = 2 * List.length bs.
Proof. induction bs; simpl; [reflexivity | rewrite IHbs; lia]. Qed.

Lemma hex_digit_lower (n : Z) : is_lower_hex (MD5.hex_digit n) = true.
Proof.
  unfold MD5.hex_digit. generalize (Z.to_nat n). intros k.
  do 16 (destruct k as [|k]; [reflexivity|]). now destruct k.
Qed.

Lemma hex_lower (bs : list Z) : Str.all is_lower_hex (MD5.hex bs) = true.
Proof.
  induction bs; simpl; [reflexivity|]. now rewrite !hex_digit_lower, IHbs.
Qed.

Lemma hexdigest_length (s : string) : String.length (MD5.hexdigest s) = 32.
Proof. unfold MD5.hexdigest. now rewrite hex_length, digest_length. Qed.

Lemma hexdigest_lower (s : string) :
  Str.all is_lower_hex (MD5.hexdigest s) = true.
Proof. apply hex_lower. Qed.

(** ** Identifier mapper *)

Lemma getitem_default (a : asset) (k : string) :
  dict_get a k <> None -> getitem a k = Ok (get_default a k).
Proof.
  unfold getitem, get_default. now destruct (dict_get a k).
Qed.

Lemma map_assets_fresh (directory : string) (records : list asset) :
  forall acc : dict string,
    Forall has_id_and_name records ->
    NoDup (keys acc ++ map asset_id records) ->
    map_assets directory records acc
    = Ok (acc ++ map (new_entry directory) records)%list.
Proof.
  induction records as [|a records IH]; intros acc Hwf Hnd.
  - cbn. now rewrite app_nil_r.
  - inversion Hwf as [|? ? [Hid Hname] Hwf']; subst.
    cbn [map_assets]. rewrite (getitem_default a "name" Hname).
    rewrite (getitem_default a "id" Hid). cbn [result_bind].
    cbn [map] in Hnd.
    assert (Hfresh : ~ In (asset_id a) (keys acc)).
    { intros Hin. apply NoDup_remove_2 in Hnd. apply Hnd.
      apply in_or_app. now left. }
    fold (asset_id a) (asset_name a).
    rewrite dict_set_fresh by exact Hfresh.
    rewrite IH; [|exact Hwf'|].
    + rewrite <- app_assoc. reflexivity.
    + unfold keys. rewrite map_app. cbn [map fst].
      rewrite <- app_assoc. exact Hnd.
Qed.

(** C3, as the code has it. On a manifest whose asset records have an id
    and a name, the ids pairwise distinct, the mapper returns one entry per
    asset, as many entries as assets: the id of each asset is mapped to the
    32 lowercase hexadecimal digits of the 16-byte MD5 digest of the UTF-8
    bytes of "file:" followed by what [os.path.join] makes of the directory
    and the name. That is the name alone when it begins with "/"; the
    directory and the name with nothing between them when the directory is
    empty or ends with "/"; and the directory, one "/" and the name in every
    other case. (Strings are sequences of code points below U+0100, which
    UTF-8 always encodes.) *)
Theorem mapper_one_entry_per_asset (directory : string) (v : vott)
  (records : dict asset) :
  assets v = Some records ->
  Forall has_id_and_name (values records) ->
  NoDup (map asset_id (values records)) ->
  exists m,
    map_old_vott_path_and_id_to_new v directory = Ok m
    /\ List.length m = List.length records
    /\ keys m = map asset_id (values records)
    /\ forall a, In a (values records) ->
         let name := asset_name a in
         let joined :=
           if Str.startswith name "/" then name
           else if (directory =? "") || Str.endswith directory "/"
                then directory ++ name
                else directory ++ "/" ++ name in
         let digest :=
           MD5.digest (MD5.md5 (MD5.encode_utf8 ("file:" ++ joined))) in
         dict_get m (asset_id a) = Some (MD5.hex digest)
         /\ List.length digest = 16
         /\ String.length (MD5.hex digest) = 32
         /\ Str.all is_lower_hex (MD5.hex digest) = true.
Proof.
  intros Hv Hwf Hnd.
  exists (map (new_entry directory) (values records)).
  assert (Hk : keys (map (new_entry directory) (values records))
               = map asset_id (values records)).
  { unfold keys. rewrite map_map. reflexivity. }
  split; [|split; [|split; [exact Hk|]]].
  - unfold map_old_vott_path_and_id_to_new. rewrite Hv. cbn [field result_bind].
    now rewrite map_assets_fresh.
  - unfold values. now rewrite !length_map.
  - intros a Ha name joined digest. split; [|split; [|split]].
    + apply dict_get_in; [now rewrite Hk|].
      apply in_map_iff. now exists a.
    + apply digest_length.
    + apply hexdigest_length.
    + apply hexdigest_lower.
Qed.

Lemma mapper_one_entry_per_asset_witness :
  exists m,
    map_old_vott_path_and_id_to_new (manifest_of cat_and_cafe) "/data/imgs"
    = Ok m
    /\ List.length m = 2
    /\ dict_get m id_a = Some "e38d7cbea47d2b337b23112e6448bae5"
    /\ dict_get m id_b = Some "096343a3ef04e75a941dbba2d904037c".
Proof.
  destruct (mapper_one_entry_per_asset "/data/imgs" (manifest_of cat_and_cafe)
              cat_and_cafe)
    as [m [Hm [Hl [_ Ha]]]].
  - reflexivity.
  - repeat constructor; discriminate.
  - repeat constructor; [|intros []]. intros [H|[]]. discriminate H.
  - exists m. split; [exact Hm|]. split; [exact Hl|]. split.
    + destruct (Ha id_a_record (or_introl eq_refl)) as [Hcat _].
      etransitivity; [exact Hcat|]. vm_compute. reflexivity.
    + destruct (Ha (mk_asset id_b cafe_jpg
                      ("file:/home/alice/imgs/" ++ cafe_jpg))
                  (or_intror (or_introl eq_refl))) as [Hcafe _].
      etransitivity; [exact Hcafe|]. vm_compute. reflexivity.
Defined.

(** C3, as stated, fails: the directory and the name are not always joined
    with one separator, and a record need not give an entry. For the name
    /cat.jpg the candidate path is file:/cat.jpg, without the directory; for
    the empty directory it is file:cat.jpg, without a separator; the
    identifiers are the digests of these. A record without a name stops the
    mapper with a KeyError, and two records of one id give one entry. *)
Lemma mapper_join_drops_directory :
  source_asset_path "/data/imgs" "/cat.jpg" = "file:/cat.jpg"
  /\ map_old_vott_path_and_id_to_new (manifest_of rooted_name) "/data/imgs"
     = Ok [(id_a, "cbb73bf4c1192ad287e792fdcc128ed8")]
  /\ source_asset_path "" "cat.jpg" = "file:cat.jpg"
  /\ map_old_vott_path_and_id_to_new (manifest_of [(id_a, id_a_record)]) ""
     = Ok [(id_a, "5e4861d32df49c4f8718b4be1f2cc38c")]
  /\ map_old_vott_path_and_id_to_new (manifest_of nameless) "/data/imgs"
     = Raise (KeyError "name")
  /\ List.length id_a_twice = 2
  /\ map_old_vott_path_and_id_to_new (manifest_of id_a_twice) "/data/imgs"
     = Ok [(id_a, "1db25e695fb12c34a2eabcb48890cd6e")].
Proof.
  split; [reflexivity|]. split; [vm_compute; reflexivity|].
  split; [reflexivity|]. split; [vm_compute; reflexivity|].
  split; [reflexivity|]. split; [reflexivity|].
  vm_compute. reflexivity.
Qed.

(** ** Distinct names, distinct paths *)

Lemma NoDup_map_on {A B} (f : A -> B) (l : list A) :
  (forall x y, In x l -> In y l -> f x = f y -> x = y) ->
  NoDup l -> NoDup (map f l).
Proof.
  induction l as [|a l IH]; intros Hinj Hnd; [constructor|].
  inversion Hnd as [|? ? Ha Hl]; subst. cbn [map]. constructor.
  - intros Hin. apply in_map_iff in Hin. destruct Hin as [x [E Hx]].
    apply Ha. rewrite <- (Hinj x a); [exact Hx | now right | now left | exact E].
  - apply IH; [|exact Hl]. intros x y Hx Hy. apply Hinj; now right.
Qed.

Lemma join_inj (a b1 b2 : string) :
  Str.startswith b1 "/" = false -> Str.startswith b2 "/" = false ->
  Path.join a b1 = Path.join a b2 -> b1 = b2.
Proof.
  unfold Path.join. intros -> ->.
  destruct ((a =? "") || Str.endswith a "/"); intros E.
  - now apply append_inv_head in E.
  - apply append_inv_head in E. now injection E.
Qed.

Lemma values_new_entries (directory : string) (records : list asset) :
  values (map (new_entry directory) records)
  = map MD5.hexdigest
      (map (fun a => source_asset_path directory (asset_name a)) records).
Proof. unfold values. rewrite !map_map. reflexivity. Qed.

(** C5, as stated, fails, on manifests of two assets with unique names. In
    the directory "/" the names a and /a give one candidate path, file:/a
    ([os.path.join] drops the directory before a name that begins with "/"),
    so the two assets, of distinct ids, get the same new identifier. And two
    assets of one id give one entry, not two. *)
Lemma mapper_values_coincide :
  NoDup (map asset_name (values slash_names))
  /\ NoDup (map asset_id (values slash_names))
  /\ source_asset_path "/" "a" = "file:/a"
  /\ source_asset_path "/" "/a" = "file:/a"
  /\ map_old_vott_path_and_id_to_new (manifest_of slash_names) "/"
     = Ok [(id_a, "11c76d0d2d81935a6ff741e48f154e44");
           (id_b, "11c76d0d2d81935a6ff741e48f154e44")]
  /\ NoDup (map asset_name (values id_a_twice))
  /\ map_old_vott_path_and_id_to_new (manifest_of id_a_twice) "/data/imgs"
     = Ok [(id_a, "1db25e695fb12c34a2eabcb48890cd6e")].
Proof.
  assert (Hdistinct : forall x y : string, x <> y -> NoDup [x; y]).
  { intros x y Hxy. repeat constructor; [|intros []]. intros [E|[]].
    now apply Hxy. }
  split; [apply Hdistinct; discriminate|].
  split; [apply Hdistinct; discriminate|].
  split; [reflexivity|]. split; [reflexivity|].
  split; [vm_compute; reflexivity|].
  split; [apply Hdistinct; discriminate|].
  vm_compute. reflexivity.
Qed.

(** C5, as the code has it. For a manifest of N assets with an id and a name
    each, the ids pairwise distinct, the names pairwise distinct and none
    beginning with "/", the mapper returns N entries whose values are the MD5
    digests, in hexadecimal, of N pairwise distinct candidate paths. The
    values are pairwise distinct when no two of these paths have the same
    digest, which the mapper does not check. *)
Theorem mapper_distinct_paths (directory : string) (v : vott)
  (records : dict asset) :
  assets v = Some records ->
  Forall has_id_and_name (values records) ->
  NoDup (map asset_id (values records)) ->
  NoDup (map asset_name (values records)) ->
  Forall (fun a => Str.startswith (asset_name a) "/" = false)
    (values records) ->
  let paths := map (fun a => source_asset_path directory (asset_name a))
                 (values records) in
  exists m,
    map_old_vott_path_and_id_to_new v directory = Ok m
    /\ List.length m = List.length records
    /\ values m = map MD5.hexdigest paths
    /\ NoDup paths
    /\ ((forall p q, In p paths -> In q paths ->
                     MD5.hexdigest p = MD5.hexdigest q -> p = q) ->
        NoDup (values m)).
Proof.
  intros Hv Hwf Hid Hname Hrel paths.
  assert (Hpaths : NoDup paths).
  { unfold paths. rewrite <- (map_map asset_name
      (fun n => source_asset_path directory n)).
    apply NoDup_map_on; [|exact Hname].
    intros x y Hx Hy E. unfold source_asset_path in E.
    apply append_inv_head in E.
    apply in_map_iff in Hx. destruct Hx as [a [<- Ha]].
    apply in_map_iff in Hy. destruct Hy as [b [<- Hb]].
    rewrite Forall_forall in Hrel.
    apply (join_inj directory); auto. }
  exists (map (new_entry directory) (values records)).
  split; [|split; [|split; [|split]]].
  - unfold map_old_vott_path_and_id_to_new. rewrite Hv.
    cbn [field result_bind]. now rewrite map_assets_fresh.
  - unfold values. now rewrite !length_map.
  - apply values_new_entries.
  - exact Hpaths.
  - intros Hinj. rewrite values_new_entries. fold paths.
    now apply NoDup_map_on.
Qed.

Lemma mapper_distinct_paths_witness :
  exists m,
    map_old_vott_path_and_id_to_new
      (manifest_of [(id_a, mk_asset id_a "cat.jpg" "file:/home/alice/cat.jpg");
                    (id_b, mk_asset id_b "dog.jpg" "file:/home/alice/dog.jpg")])
      "/data/imgs" = Ok m
    /\ List.length m = 2
    /\ NoDup ["file:/data/imgs/cat.jpg"; "file:/data/imgs/dog.jpg"]
    /\ values m = ["e38d7cbea47d2b337b23112e6448bae5";
                   "1db25e695fb12c34a2eabcb48890cd6e"].
Proof.
  destruct (mapper_distinct_paths "/data/imgs"
    (manifest_of [(id_a, mk_asset id_a "cat.jpg" "file:/home/alice/cat.jpg");
                  (id_b, mk_asset id_b "dog.jpg" "file:/home/alice/dog.jpg")])
    [(id_a, mk_asset id_a "cat.jpg" "file:/home/alice/cat.jpg");
     (id_b, mk_asset id_b "dog.jpg" "file:/home/alice/dog.jpg")])
    as [m [Hm [Hl [Hv [Hp _]]]]].
  - reflexivity.
  - repeat constructor; discriminate.
  - repeat constructor; [|intros []]. intros [H|[]]. discriminate H.
  - repeat constructor; [|intros []]. intros [H|[]]. discriminate H.
  - repeat constructor.
  - exists m. split; [exact Hm|]. split; [exact Hl|]. split; [exact Hp|].
    rewrite Hv. vm_compute. reflexivity.
Defined.

(** ** The run on a manifest without assets *)

(** C6. When the project file is found and read and its manifest has no
    asset, the run stops with an IndexError at the read of the first asset,
    from which the old source directory is taken: the mapper is not called
    and the directory is as it was. *)
Theorem main_zero_assets (json_load : string -> result vott)
  (new_source_directory target_directory vott_file text : string)
  (v : vott) (d : fs) :
  get_single_file_with_suffix (listdir d) target_directory (SuffixStr ".vott")
    = Ok vott_file ->
  read_text vott_file d = (Ok text, d) ->
  json_load text = Ok v ->
  assets v = Some [] ->
  main json_load new_source_directory target_directory d
    = (Raise IndexError, d).
Proof.
  intros Hfile Hread Hload Hassets.
  unfold main, bind, get_names, lift.
  rewrite Hfile, Hread, Hload, Hassets. reflexivity.
Qed.

Lemma main_zero_assets_witness :
  main (fun _ => Ok (manifest_of [])) "/data/imgs" "/proj"
    [("project.vott", File "{ }")]
  = (Raise IndexError, [("project.vott", File "{ }")]).
Proof.
  apply (main_zero_assets _ "/data/imgs" "/proj" "/proj/project.vott" "{ }"
           (manifest_of [])); reflexivity.
Defined.

(** ** Base names *)

Lemma contains_sep_cons (c : ascii) (s : string) :
  Str.contains (String c s) "/" = Ascii.eqb "/" c || Str.contains s "/".
Proof.
  cbn [Str.contains]. rewrite prefix_cons, prefix_nil.
  now destruct (Ascii.eqb "/" c).
Qed.

Lemma contains_sep_append (a b : string) :
  Str.contains (a ++ b) "/" = Str.contains a "/" || Str.contains b "/".
Proof.
  induction a as [|c a IH]; [reflexivity|].
  change (String c a ++ b) with (String c (a ++ b)).
  rewrite !contains_sep_cons, IH. apply orb_assoc.
Qed.

Lemma no_sep_relative (n : string) :
  Str.contains n "/" = false -> Str.startswith n "/" = false.
Proof.
  destruct n as [|c n]; [reflexivity|]. rewrite contains_sep_cons.
  intros H. apply orb_false_iff in H. destruct H as [H _].
  unfold Str.startswith. now rewrite prefix_cons, H.
Qed.

Lemma rfind1_append (a b : string) :
  Str.rfind1 Path.sep (a ++ b)
  = match Str.rfind1 Path.sep b with
    | O => Str.rfind1 Path.sep a
    | S k => String.length a + S k
    end.
Proof.
  induction a as [|c a IH]; cbn [append Str.rfind1 String.length].
  - now destruct (Str.rfind1 Path.sep b).
  - rewrite IH. destruct (Str.rfind1 Path.sep b); [reflexivity|].
    rewrite !Nat.add_succ_r. reflexivity.
Qed.

Lemma drop_append (a b : string) (k : nat) :
  Str.drop (String.length a + k) (a ++ b) = Str.drop k b.
Proof. induction a as [|c a IH]; [reflexivity | exact IH]. Qed.

Lemma basename_after_sep (a n : string) :
  Str.contains n "/" = false -> Path.basename (a ++ "/" ++ n) = n.
Proof.
  intros H. unfold Path.basename. rewrite rfind1_append.
  cbn [append Str.rfind1]. rewrite (rfind1_absent n H).
  cbn [Path.sep Ascii.eqb Bool.eqb]. now rewrite drop_append.
Qed.

(** The base name of a path made by [join] from a name without "/" is the
    name. *)
Lemma basename_join (a n : string) :
  Str.contains n "/" = false -> Path.basename (Path.join a n) = n.
Proof.
  intros H. unfold Path.join. rewrite (no_sep_relative n H).
  destruct (String.eqb_spec a "") as [->|Ha]; cbn [orb].
  - unfold Path.basename. cbn [append]. now rewrite (rfind1_absent n H).
  - destruct (Str.endswith a "/") eqn:E.
    + destruct (endswith_split _ _ E) as [d ->].
      rewrite append_assoc. now apply basename_after_sep.
    + now apply basename_after_sep.
Qed.

(** ** File matcher, an entry under several suffixes *)

Lemma same_name_once (name : string) (names : list string) :
  NoDup names -> In name names ->
  List.length (filter (fun n => n =? name) names) = 1.
Proof.
  induction names as [|n names IH]; intros Hnd Hin; [contradiction|].
  inversion Hnd as [|? ? Hn Hnd']; subst. cbn [filter].
  destruct (String.eqb_spec n name) as [->|Hne].
  - cbn [List.length]. f_equal.
    assert (E : filter (fun n => n =? name) names = []).
    { clear IH Hnd Hnd' Hin. induction names as [|m names IH]; [reflexivity|].
      cbn [filter]. destruct (String.eqb_spec m name) as [->|_].
      - exfalso. apply Hn. now left.
      - apply IH. intros H. apply Hn. now right. }
    now rewrite E.
  - apply IH; [exact Hnd'|]. destruct Hin as [E|H]; [contradiction | exact H].
Qed.

Lemma same_name_filtered (f : string -> bool) (name : string)
  (names : list string) :
  List.length (filter (fun n => n =? name) (filter f names))
  = if f name then List.length (filter (fun n => n =? name) names) else 0.
Proof.
  induction names as [|n names IH]; [now destruct (f name)|].
  cbn [filter]. destruct (String.eqb_spec n name) as [->|Hne].
  - destruct (f name) eqn:E; [|exact IH].
    cbn [filter]. rewrite String.eqb_refl. cbn [List.length]. now rewrite IH.
  - destruct (f n); [|exact IH]. cbn [filter].
    destruct (String.eqb_spec n name) as [E|_]; [contradiction | exact IH].
Qed.

(** How often one pattern lists an entry: once when it matches, else never. *)
Lemma glob_star_count (names : list string) (directory suffix name : string) :
  Forall (fun n => Str.contains n "/" = false) names ->
  NoDup names -> In name names ->
  List.length (filter (fun p => Path.basename p =? name)
                 (glob_star names directory suffix))
  = if matches suffix name then 1 else 0.
Proof.
  intros Hsep Hnd Hin. unfold glob_star.
  assert (E : forall l, Forall (fun n => Str.contains n "/" = false) l ->
            List.length (filter (fun p => Path.basename p =? name)
                           (map (Path.join (pattern_dirname directory suffix))
                              l))
            = List.length (filter (fun n => n =? name) l)).
  { induction l as [|n l IH]; intros Hl; [reflexivity|].
    inversion Hl as [|? ? Hn Hl']; subst. cbn [map filter].
    rewrite (basename_join _ n Hn).
    destruct (n =? name); cbn [List.length]; now rewrite IH. }
  rewrite E.
  - rewrite same_name_filtered.
    destruct (matches suffix name); [now apply same_name_once | reflexivity].
  - rewrite Forall_forall in *. intros n Hn. apply Hsep.
    now apply filter_In in Hn.
Qed.

Lemma matching_hidden (suffixes : list string) (name : string) :
  ishidden name = true -> matching suffixes name = [].
Proof.
  intros H. unfold matching, matches. rewrite H.
  induction suffixes as [|s ss IH]; [reflexivity | exact IH].
Qed.

Lemma filter_length_bound {A} (f : A -> bool) (l : list A) :
  List.length (filter f l) <= List.length l.
Proof.
  induction l as [|a l IH]; [reflexivity|]. cbn [filter].
  destruct (f a); cbn [List.length]; lia.
Qed.

(** C8, as the code has it. The directory path and the listed suffixes have
    none of the pattern characters [*], [?], [[] (and the suffixes no "/").
    Whatever else the directory holds, an entry is in the candidate list once
    for each listed suffix its name ends with, repetitions in the list
    counted, when its name does not begin with a dot, and not at all when it
    does. So one entry that does not begin with a dot and ends with two or
    more of the listed suffixes is enough for the error for more than one
    file, also when it is the only entry. *)
Theorem file_collected_once_per_suffix (names : list string)
  (directory name : string) (suffixes : list string) :
  has_magic directory = false ->
  forallb literal_suffix suffixes = true ->
  NoDup names ->
  Forall (fun n => Str.contains n "/" = false) names ->
  In name names ->
  let collected :=
    filter (fun p => Path.basename p =? name)
      (candidates names directory (SuffixList suffixes)) in
  let ending := filter (Str.endswith name) suffixes in
  List.length collected
  = (if ishidden name then 0 else List.length ending)
  /\ (ishidden name = false -> 2 <= List.length ending ->
      get_single_file_with_suffix names directory (SuffixList suffixes)
      = Raise (TooManyFiles (SuffixList suffixes) directory)).
Proof.
  intros _ _ Hnd Hsep Hin collected ending.
  assert (E : List.length collected = List.length (matching suffixes name)).
  { unfold collected, candidates, matching. clear collected ending.
    induction suffixes as [|s ss IH]; [reflexivity|].
    cbn [flat_map filter]. rewrite filter_app, length_app, IH.
    rewrite (glob_star_count names directory s name Hsep Hnd Hin).
    now destruct (matches s name). }
  assert (Hcount : List.length collected
                   = if ishidden name then 0 else List.length ending).
  { rewrite E. destruct (ishidden name) eqn:Hv.
    - now rewrite matching_hidden.
    - now rewrite matching_visible. }
  split; [exact Hcount|].
  intros Hv Hn. apply matcher_too_many. rewrite Hv in Hcount.
  pose proof (filter_length_bound (fun p => Path.basename p =? name)
                (candidates names directory (SuffixList suffixes))) as Hle.
  fold collected in Hle. lia.
Qed.

Lemma file_collected_once_per_suffix_witness :
  List.length
    (filter (fun p => Path.basename p =? "photo.jpeg")
       (candidates ["notes.txt"; "photo.jpeg"; ".photo.jpeg"] "/imgs"
          (SuffixList [".jpeg"; "g"; ".png"]))) = 2
  /\ get_single_file_with_suffix ["notes.txt"; "photo.jpeg"; ".photo.jpeg"]
       "/imgs" (SuffixList [".jpeg"; "g"; ".png"])
     = Raise (TooManyFiles (SuffixList [".jpeg"; "g"; ".png"]) "/imgs").
Proof.
  destruct (file_collected_once_per_suffix
              ["notes.txt"; "photo.jpeg"; ".photo.jpeg"] "/imgs" "photo.jpeg"
              [".jpeg"; "g"; ".png"]) as [Hcount Hraise].
  - reflexivity.
  - reflexivity.
  - repeat constructor; cbn; intuition discriminate.
  - repeat constructor.
  - right. now left.
  - split; [exact Hcount|]. apply Hraise; [reflexivity | cbn; lia].
Defined.

(** C8, as stated, fails for a dot file. The name .a.tar.gz ends with both
    listed suffixes; the patterns *.gz and *.tar.gz do not match it, since
    [*] takes no leading dot. The file is collected for neither suffix, and a
    directory that holds it alone raises the error for no file, not the one
    for more than one. *)
Lemma dot_file_collected_for_no_suffix :
  Str.endswith ".a.tar.gz" ".gz" = true
  /\ Str.endswith ".a.tar.gz" ".tar.gz" = true
  /\ candidates [".a.tar.gz"] "/proj" (SuffixList [".gz"; ".tar.gz"]) = []
  /\ get_single_file_with_suffix [".a.tar.gz"] "/proj"
       (SuffixList [".gz"; ".tar.gz"])
     = Raise (NoFileFound (SuffixList [".gz"; ".tar.gz"]) "/proj").
Proof. repeat split. Qed.

(** ** Renaming an entry *)

Lemma dict_get_fs_move (s t k : string) (d : fs) :
  s <> t ->
  dict_get (fs_move s t d) k
  = if k =? t then dict_get d s
    else if k =? s then None
    else dict_get d k.
Proof.
  intros Hst. unfold fs_move.
  induction d as [|[n x] d IH]; cbn [filter map fst snd dict_get negb].
  - now destruct (k =? t), (k =? s).
  - destruct (String.eqb_spec n t) as [->|Hnt]; cbn [negb].
    + rewrite IH.
      destruct (String.eqb_spec t s) as [E|_]; [congruence|].
      destruct (String.eqb_spec k t) as [->|Hkt]; [reflexivity|].
      destruct (String.eqb_spec k s) as [->|Hks]; [reflexivity|].
      destruct (String.eqb_spec t k) as [E|_]; [congruence | reflexivity].
    + cbn [map fst snd]. destruct (String.eqb_spec n s) as [->|Hns];
        cbn [dict_get fst snd].
      * destruct (String.eqb_spec t k) as [<-|Htk].
        -- now rewrite String.eqb_refl.
        -- rewrite IH.
           destruct (String.eqb_spec k t) as [E|_]; [congruence|].
           destruct (String.eqb_spec k s) as [->|Hks]; [reflexivity|].
           destruct (String.eqb_spec s k) as [E|_]; [congruence | reflexivity].
      * destruct (String.eqb_spec n k) as [<-|Hnk].
        -- destruct (String.eqb_spec n t) as [E|_]; [congruence|].
           destruct (String.eqb_spec n s) as [E|_]; [congruence | reflexivity].
        -- rewrite IH.
           destruct (String.eqb_spec k t) as [->|Hkt]; [reflexivity|].
           destruct (String.eqb_spec k s) as [->|Hks]; reflexivity.
Qed.

(** A rename to a name that is free. *)
Lemma os_rename_free (src dst : string) (d : fs) :
  dict_get d (Path.basename src) <> None ->
  dict_get d (Path.basename dst) = None ->
  os_rename src dst d
  = (Ok tt, fs_move (Path.basename src) (Path.basename dst) d).
Proof.
  intros Hsrc Hdst. unfold os_rename.
  destruct (dict_get d (Path.basename src)) as [x|] eqn:E; [|congruence].
  destruct (String.eqb_spec (Path.basename src) (Path.basename dst)) as [Eq|_].
  - rewrite Eq in E. congruence.
  - now rewrite Hdst.
Qed.

(** ** Pass 1 *)

Lemma dict_get_value {V} (d : dict V) (k : string) (v : V) :
  dict_get d k = Some v -> In v (values d).
Proof.
  induction d as [|[k' v'] d IH]; cbn [dict_get values map snd In];
    [discriminate|].
  destruct (k' =? k); intros H; [left; congruence | right; now apply IH].
Qed.

Lemma renamed_mapped (ids : dict string) (n new_id : string) :
  dict_get ids (Str.before "-" n) = Some new_id ->
  renamed ids n = new_id ++ "-asset.json".
Proof. unfold renamed. now intros ->. Qed.

Lemma rename_assets_unmapped (t : string) (ids : dict string)
  (p : string) (rest : list string) (cur : fs) :
  dict_get ids (Str.before "-" (Path.basename p)) = None ->
  rename_assets t ids (p :: rest) cur
  = (Raise (KeyError (Str.before "-" (Path.basename p))), cur).
Proof.
  intros H. cbn [rename_assets]. unfold bind, lift, getitem. now rewrite H.
Qed.

Lemma rename_assets_app (t : string) (ids : dict string) (l1 l2 : list string) :
  forall cur,
    rename_assets t ids (l1 ++ l2) cur
    = match rename_assets t ids l1 cur with
      | (Ok _, d') => rename_assets t ids l2 d'
      | (Raise e, d') => (Raise e, d')
      end.
Proof.
  induction l1 as [|p l1 IH]; intros cur; [reflexivity|].
  cbn [app rename_assets]. unfold bind, lift.
  destruct (getitem ids _) as [new_id|e]; [|reflexivity].
  destruct (os_rename _ _ cur) as [[u|e] d']; [apply IH | reflexivity].
Qed.

(** The entries [names], all mapped, to names that are new and pairwise
    distinct: every one is renamed and nothing else changes. *)
Lemma rename_assets_all (t dn : string) (ids : dict string) :
  Forall (fun v => Str.contains v "/" = false) (values ids) ->
  forall (names : list string) (cur : fs),
    Forall (fun n => Str.contains n "/" = false) names ->
    (forall n, In n names -> dict_get cur n <> None) ->
    (forall n, In n names -> dict_get ids (Str.before "-" n) <> None) ->
    NoDup names ->
    NoDup (map (renamed ids) names) ->
    (forall n, In n names -> dict_get cur (renamed ids n) = None) ->
    exists d',
      rename_assets t ids (map (Path.join dn) names) cur = (Ok tt, d')
      /\ (forall n, In n names ->
            dict_get d' (renamed ids n) = dict_get cur n
            /\ dict_get d' n = None)
      /\ (forall k, ~ In k names -> ~ In k (map (renamed ids) names) ->
            dict_get d' k = dict_get cur k).
Proof.
  intros Hids. induction names as [|n rest IH];
    intros cur Hsep Hin Hmap Hnd Hnew Hfree.
  - exists cur. cbn. repeat split; intros; tauto.
  - inversion Hsep as [|? ? Hn Hsep']; subst.
    inversion Hnd as [|? ? Hn_rest Hnd']; subst.
    cbn [map] in Hnew. inversion Hnew as [|? ? Hr_rest Hnew']; subst.
    destruct (dict_get ids (Str.before "-" n)) as [new_id|] eqn:E;
      [|exfalso; apply (Hmap n); [now left | exact E]].
    pose proof (renamed_mapped _ _ _ E) as Hr.
    assert (Hnew_sep : Str.contains (new_id ++ "-asset.json") "/" = false).
    { rewrite contains_sep_append. rewrite Forall_forall in Hids.
      now rewrite (Hids new_id (dict_get_value _ _ _ E)). }
    assert (Hne : n <> renamed ids n).
    { intros Eq. apply (Hin n); [now left|]. rewrite Eq at 1.
      apply Hfree. now left. }
    remember (renamed ids n) as r eqn:Hr0.
    assert (Hfree_n : dict_get cur r = None)
      by (rewrite Hr0; apply Hfree; now left).
    assert (Hin' : forall m, In m rest -> dict_get (fs_move n r cur) m <> None).
    { intros m Hm. rewrite dict_get_fs_move by exact Hne.
      destruct (String.eqb_spec m r) as [->|_].
      - exfalso. apply (Hin r); [now right | exact Hfree_n].
      - destruct (String.eqb_spec m n) as [->|_]; [contradiction|].
        apply Hin. now right. }
    assert (Hfree' : forall m, In m rest ->
                       dict_get (fs_move n r cur) (renamed ids m) = None).
    { intros m Hm. rewrite dict_get_fs_move by exact Hne.
      destruct (String.eqb_spec (renamed ids m) r) as [Eq|_].
      - exfalso. apply Hr_rest. rewrite <- Eq. now apply in_map.
      - destruct (String.eqb_spec (renamed ids m) n) as [Eq|_]; [reflexivity|].
        apply Hfree. now right. }
    destruct (IH (fs_move n r cur) Hsep' Hin'
                (fun m Hm => Hmap m (or_intror Hm)) Hnd' Hnew' Hfree')
      as [d' [Hrun [Hdone Hother]]].
    exists d'. split; [|split].
    + cbn [map rename_assets]. unfold bind, lift, getitem.
      rewrite (basename_join dn n Hn), E.
      rewrite os_rename_free.
      * rewrite (basename_join dn n Hn), (basename_join t _ Hnew_sep).
        rewrite <- Hr. exact Hrun.
      * rewrite (basename_join dn n Hn). apply Hin. now left.
      * rewrite (basename_join t _ Hnew_sep), <- Hr. exact Hfree_n.
    + intros m [<-|Hm].
      * rewrite <- Hr0.
        assert (Hrn : ~ In r rest).
        { intros Hc. apply (Hin r); [now right | exact Hfree_n]. }
        assert (Hnr : ~ In n (map (renamed ids) rest)).
        { intros Hc. apply in_map_iff in Hc. destruct Hc as [m [Eq Hm]].
          apply (Hin n); [now left|]. rewrite <- Eq. apply Hfree. now right. }
        rewrite (Hother r Hrn Hr_rest), (Hother n Hn_rest Hnr).
        rewrite !dict_get_fs_move by exact Hne.
        rewrite String.eqb_refl.
        destruct (String.eqb_spec n r) as [Eq|_]; [contradiction|].
        now rewrite String.eqb_refl.
      * destruct (Hdone m Hm) as [H1 H2]. split; [|exact H2].
        rewrite H1, dict_get_fs_move by exact Hne.
        destruct (String.eqb_spec m r) as [->|_].
        -- exfalso. apply (Hin r); [now right | exact Hfree_n].
        -- destruct (String.eqb_spec m n) as [->|_]; [contradiction|reflexivity].
    + intros k Hk Hkr. cbn [In map] in Hk, Hkr.
      rewrite Hother by tauto.
      rewrite dict_get_fs_move by exact Hne.
      destruct (String.eqb_spec k r) as [->|_];
        [exfalso; apply Hkr; left; now symmetry|].
      destruct (String.eqb_spec k n) as [->|_]; [tauto | reflexivity].
Qed.

Lemma map_basename_join (dn : string) (names : list string) :
  Forall (fun n => Str.contains n "/" = false) names ->
  map Path.basename (map (Path.join dn) names) = names.
Proof.
  induction 1 as [|n names Hn _ IH]; [reflexivity|].
  cbn [map]. now rewrite (basename_join dn n Hn), IH.
Qed.

Lemma pass1_run (t : string) (ids : dict string) (d : fs) :
  pass1 t ids d
  = rename_assets t ids
      (map (Path.join (pattern_dirname t "-asset.json"))
         (filter (matches "-asset.json") (listdir d))) d.
Proof. reflexivity. Qed.

(** C2, as the code has it, for a target directory whose path has none of
    the pattern characters [*], [?], [[] (which [glob.glob] would read as a
    pattern). Pass 1 takes the entries of the directory whose
    name ends with -asset.json and does not begin with a dot, in listing
    order, whatever stands before -asset.json. The text before the first "-"
    of the name is looked up as the old identifier and the entry is renamed to
    <new identifier>-asset.json in the same directory. Let the entries taken
    be [done] followed by [rest], those of [done] being mapped, to names that
    are pairwise distinct and not yet in the directory. Then the entries of
    [done] are renamed: each new name holds what the old name held, no old
    name is left, and every other entry is as it was. With nothing left in
    [rest] the pass ends there; with a first entry of [rest] that has no
    mapping, the pass stops with a KeyError for its identifier, the renames
    of [done] kept. *)
Theorem pass1_renames (t : string) (ids : dict string) (d : fs)
  (done rest : list string) :
  has_magic t = false ->
  NoDup (keys d) ->
  Forall (fun n => Str.contains n "/" = false) (keys d) ->
  Forall (fun v => Str.contains v "/" = false) (values ids) ->
  filter (matches "-asset.json") (listdir d) = (done ++ rest)%list ->
  (forall n, In n done -> dict_get ids (Str.before "-" n) <> None) ->
  NoDup (map (renamed ids) done) ->
  (forall n, In n done -> ~ In (renamed ids n) (keys d)) ->
  map Path.basename (glob_star (listdir d) t "-asset.json")
    = (done ++ rest)%list
  /\ exists d',
       (forall n, In n done ->
          dict_get d' (renamed ids n) = dict_get d n /\ dict_get d' n = None)
       /\ (forall k, ~ In k done -> ~ In k (map (renamed ids) done) ->
             dict_get d' k = dict_get d k)
       /\ match rest with
          | [] => pass1 t ids d = (Ok tt, d')
          | n :: _ =>
              dict_get ids (Str.before "-" n) = None ->
              pass1 t ids d = (Raise (KeyError (Str.before "-" n)), d')
          end.
Proof.
  intros _ Hnd Hsep Hids Hsel Hmap Hnew Hfree.
  assert (Hsub : forall n, In n (done ++ rest)%list -> In n (keys d)).
  { intros n Hn. rewrite <- Hsel in Hn. now apply filter_In in Hn. }
  assert (Hsep_sel : Forall (fun n => Str.contains n "/" = false)
                       (done ++ rest)%list).
  { rewrite Forall_forall in *. intros n Hn. apply Hsep, Hsub, Hn. }
  split.
  - unfold glob_star. rewrite Hsel. now apply map_basename_join.
  - assert (Hnd_sel : NoDup (done ++ rest)%list).
    { rewrite <- Hsel. now apply NoDup_filter. }
    destruct (rename_assets_all t (pattern_dirname t "-asset.json") ids Hids
                done d) as [d' [Hrun [Hdone Hother]]].
    + apply Forall_app in Hsep_sel. tauto.
    + intros n Hn Hc. apply dict_get_none in Hc. apply Hc.
      apply Hsub, in_or_app. now left.
    + exact Hmap.
    + now apply NoDup_app_remove_r in Hnd_sel.
    + exact Hnew.
    + intros n Hn. apply dict_get_none. now apply Hfree.
    + exists d'. split; [exact Hdone|]. split; [exact Hother|].
      rewrite pass1_run, Hsel, map_app, rename_assets_app, Hrun.
      destruct rest as [|n rest]; [reflexivity|].
      intros Hn. cbn [map].
      assert (Hb : Path.basename
                     (Path.join (pattern_dirname t "-asset.json") n) = n).
      { apply basename_join. rewrite Forall_forall in Hsep_sel.
        apply Hsep_sel, in_or_app. right. now left. }
      rewrite rename_assets_unmapped; rewrite Hb; [reflexivity | exact Hn].
Qed.

Lemma pass1_renames_witness :
  exists d',
    pass1 "/proj" [(id_a, id_b)] one_asset_dir = (Ok tt, d')
    /\ dict_get d' (id_b ++ "-asset.json") = Some (File "regions")
    /\ dict_get d' (id_a ++ "-asset.json") = None
    /\ dict_get d' "project.vott" = Some (File "{ }").
Proof.
  destruct (pass1_renames "/proj" [(id_a, id_b)] one_asset_dir
              [id_a ++ "-asset.json"] [])
    as [_ [d' [Hdone [Hother Hrun]]]].
  - reflexivity.
  - repeat constructor; cbn; intuition discriminate.
  - repeat constructor.
  - repeat constructor.
  - reflexivity.
  - intros n [<-|[]]. discriminate.
  - repeat constructor. intros [].
  - intros n [<-|[]]. cbn. intuition discriminate.
  - exists d'. split; [exact Hrun|].
    destruct (Hdone (id_a ++ "-asset.json") (or_introl eq_refl)) as [H1 H2].
    split; [exact H1|]. split; [exact H2|].
    apply (Hother "project.vott"); cbn; intuition discriminate.
Defined.

(** C2, as stated, fails. The entry notes-asset.json is not of the form
    <32 hexadecimal digits>-asset.json and Pass 1 takes it: "notes" is looked
    up as the old identifier. Without a mapping for it the pass stops with a
    KeyError; with one the entry is renamed. *)
Lemma pass1_takes_other_names :
  let d := [("project.vott", File "{ }"); ("notes-asset.json", File "todo")] in
  hex32_asset_name "notes-asset.json" = false
  /\ pass1 "/proj" [(id_a, id_b)] d = (Raise (KeyError "notes"), d)
  /\ pass1 "/proj" [("notes", id_b)] d
     = (Ok tt, [("project.vott", File "{ }");
                (id_b ++ "-asset.json", File "todo")]).
Proof. repeat split. Qed.

(** ** Pass 2 *)

Lemma dict_get_set {V} (d : dict V) (k k' : string) (v : V) :
  dict_get (dict_set d k v) k'
  = if k =? k' then Some v else dict_get d k'.
Proof.
  induction d as [|[k0 v0] d IH]; cbn [dict_set dict_get]; [reflexivity|].
  destruct (String.eqb_spec k0 k) as [->|Hne]; cbn [dict_get].
  - now destruct (k =? k').
  - rewrite IH. destruct (String.eqb_spec k0 k') as [->|_]; [|reflexivity].
    destruct (String.eqb_spec k k') as [E|_]; [congruence | reflexivity].
Qed.

Lemma endswith_nil (s : string) : Str.endswith s "" = true.
Proof.
  rewrite <- (append_nil_r s) at 1. apply endswith_append.
Qed.

Lemma filter_map_swap {A B} (f : A -> B) (p : B -> bool) (l : list A) :
  filter p (map f l) = map f (filter (fun x => p (f x)) l).
Proof.
  induction l as [|x l IH]; cbn [map filter]; [reflexivity|].
  rewrite IH. now destruct (p (f x)).
Qed.

Lemma dict_get_remove (b k : string) (d : fs) :
  dict_get (fs_remove b d) k = if k =? b then None else dict_get d k.
Proof.
  unfold fs_remove.
  induction d as [|[n x] d IH]; cbn [filter dict_get fst negb].
  - now destruct (k =? b).
  - destruct (String.eqb_spec n b) as [->|Hnb]; cbn [negb dict_get].
    + rewrite IH. destruct (String.eqb_spec k b) as [->|Hkb]; [reflexivity|].
      destruct (String.eqb_spec b k) as [E|_]; [congruence | reflexivity].
    + rewrite IH. destruct (String.eqb_spec n k) as [<-|_]; [|reflexivity].
      destruct (String.eqb_spec n b) as [E|_]; [congruence | reflexivity].
Qed.

Lemma basename_backup (a n : string) :
  Str.contains n "/" = false ->
  Path.basename (Path.join a n ++ ".bak") = n ++ ".bak".
Proof.
  intros H.
  assert (Hb : Str.contains (n ++ ".bak") "/" = false)
    by now rewrite contains_sep_append, H.
  unfold Path.join. rewrite (no_sep_relative n H).
  destruct (String.eqb_spec a "") as [->|Ha]; cbn [orb].
  - unfold Path.basename. cbn [append]. now rewrite (rfind1_absent _ Hb).
  - destruct (Str.endswith a "/") eqn:E.
    + destruct (endswith_split _ _ E) as [d ->].
      rewrite !append_assoc. now apply (basename_after_sep d).
    + rewrite !append_assoc. now apply (basename_after_sep a).
Qed.

Lemma backup_differs (n : string) : n <> n ++ ".bak".
Proof.
  intros E. apply (f_equal String.length) in E.
  rewrite length_append in E. simpl in E. lia.
Qed.

(** A regular file whose backup name is free: after the rewrite in place the
    file holds the rewritten text and nothing else has changed. *)
Lemma inplace_effect (dn n c : string) (rewrite : string -> string) (cur : fs) :
  Str.contains n "/" = false ->
  dict_get cur n = Some (File c) ->
  dict_get cur (n ++ ".bak") = None ->
  exists cur',
    inplace (Path.join dn n) rewrite cur = (Ok tt, cur')
    /\ forall k, dict_get cur' k
                 = if k =? n then Some (File (rewrite c)) else dict_get cur k.
Proof.
  intros Hn Hc Hbak.
  pose proof (backup_differs n) as Hne.
  exists (fs_remove (n ++ ".bak")
            (dict_set (fs_move n (n ++ ".bak") cur) n (File (rewrite c)))).
  split.
  - unfold inplace, bind, try_unlink, read_text, write_text, entry.
    rewrite (basename_backup dn n Hn), Hbak.
    rewrite os_rename_free;
      rewrite ?(basename_backup dn n Hn), ?(basename_join dn n Hn);
      [|congruence | exact Hbak].
    rewrite dict_get_fs_move, String.eqb_refl, Hc by exact Hne.
    rewrite dict_get_set. destruct (String.eqb_spec n (n ++ ".bak")) as [E|_];
      [contradiction|].
    now rewrite dict_get_fs_move, String.eqb_refl, Hc by exact Hne.
  - intros k. rewrite dict_get_remove, dict_get_set.
    rewrite dict_get_fs_move by exact Hne.
    destruct (String.eqb_spec k (n ++ ".bak")) as [->|Hkb].
    + destruct (String.eqb_spec (n ++ ".bak") n) as [E|_];
        [symmetry in E; contradiction | now rewrite Hbak].
    + destruct (String.eqb_spec n k) as [<-|Hnk].
      * now rewrite String.eqb_refl.
      * destruct (String.eqb_spec k n) as [E|_]; [congruence | reflexivity].
Qed.

(** The files [names], none with an entry at its backup name, rewritten one
    after the other: each holds its text rewritten and nothing else
    changes. *)
Lemma rewrite_files_all (dn : string) (ids : dict string) (old new : string) :
  forall (names : list string) (cur : fs),
    Forall (fun n => Str.contains n "/" = false) names ->
    NoDup names ->
    (forall n, In n names -> exists c, dict_get cur n = Some (File c)) ->
    (forall n, In n names -> dict_get cur (n ++ ".bak") = None) ->
    exists d',
      rewrite_files ids old new (map (Path.join dn) names) cur = (Ok tt, d')
      /\ (forall n c, In n names -> dict_get cur n = Some (File c) ->
            dict_get d' n = Some (File (rewrite_content ids old new c)))
      /\ (forall k, ~ In k names -> dict_get d' k = dict_get cur k).
Proof.
  induction names as [|n rest IH]; intros cur Hsep Hnd Hfile Hbak.
  - exists cur. cbn. repeat split; intros; tauto.
  - inversion Hsep as [|? ? Hn Hsep']; subst.
    inversion Hnd as [|? ? Hn_rest Hnd']; subst.
    destruct (Hfile n (or_introl eq_refl)) as [c Hc].
    destruct (inplace_effect dn n c (rewrite_content ids old new) cur Hn Hc
                (Hbak n (or_introl eq_refl))) as [cur' [Hstep Hget]].
    assert (Hsame : forall m, m <> n -> dict_get cur' m = dict_get cur m).
    { intros m Hm. rewrite Hget.
      destruct (String.eqb_spec m n) as [E|_]; [congruence | reflexivity]. }
    destruct (IH cur' Hsep' Hnd') as [d' [Hrun [Hdone Hother]]].
    { intros m Hm. rewrite Hsame by (intros ->; contradiction).
      apply Hfile. now right. }
    { intros m Hm. rewrite Hsame; [apply Hbak; now right|].
      intros E. pose proof (Hbak m (or_intror Hm)) as Hb.
      rewrite E in Hb. congruence. }
    exists d'. split; [|split].
    + cbn [map rewrite_files]. unfold bind at 1. rewrite Hstep. exact Hrun.
    + intros m cm [<-|Hm] Hcm.
      * rewrite (Hother n Hn_rest), Hget, String.eqb_refl. congruence.
      * apply Hdone; [exact Hm|].
        rewrite Hsame by (intros ->; contradiction). exact Hcm.
    + intros k Hk. cbn [In] in Hk. rewrite Hother by tauto.
      apply Hsame. intros ->. tauto.
Qed.





Example replace_ex1 : Str.replace "ab" "X" "abcabab" = "XcXX".
Proof. reflexivity. Qed.
Example replace_ex2 : Str.replace "aa" "b" "aaaaa" = "bba".
Proof. reflexivity. Qed.
Example replace_ex3 : Str.replace "" "X" "abc" = "XaXbXcX".
Proof. reflexivity. Qed.
Example split_ex1 : Path.split "/home/dir/file.txt" = ("/home/dir", "file.txt").
Proof. reflexivity. Qed.
Example split_ex2 : Path.split "cat.jpg" = ("", "cat.jpg").
Proof. reflexivity. Qed.
Example split_ex3 : Path.split "/cat.jpg" = ("/", "cat.jpg").
Proof. reflexivity. Qed.
Example split_ex4 : Path.split "//a//b" = ("//a", "b").
Proof. reflexivity. Qed.
Example join_ex1 : Path.join "/data/imgs" "cat.jpg" = "/data/imgs/cat.jpg".
Proof. reflexivity. Qed.
Example basename_ex1 : Path.basename "/t/ab-asset.json" = "ab-asset.json".
Proof. reflexivity. Qed.
Example md5_empty : MD5.hexdigest "" = "d41d8cd98f00b204e9800998ecf8427e".
Proof. vm_compute. reflexivity. Qed.
Example md5_abc : MD5.hexdigest "abc" = "900150983cd24fb0d6963f7d28e17f72".
Proof. vm_compute. reflexivity. Qed.
Example md5_80 : MD5.hexdigest "12345678901234567890123456789012345678901234567890123456789012345678901234567890" = "57edf4a22be3c955ac49da2e2107b67a".
Proof. vm_compute. reflexivity. Qed.
Example md5_cat : MD5.hexdigest "file:/data/imgs/cat.jpg" = "e38d7cbea47d2b337b23112e6448bae5".
Proof. vm_compute. reflexivity. Qed.

(** A whole run on a project of one asset, moved to /data/my imgs: the file
    of the asset takes the new identifier as its name, both files tell the new
    identifier and the new directory, and the entry that begins with a dot and
    the directory are as they were. *)
Example main_cat_project :
  let new_id := "f81131780c2404f791d423180261bad9" in
  main (fun _ => Ok cat_manifest) "/data/my imgs" "/proj" cat_project
  = (Ok tt,
     [(".cache", File id_a);
      ("exports", Dir false);
      ("project.vott",
       File ("id " ++ new_id ++ " path file:/data/my%20imgs/cat.jpg"));
      (new_id ++ "-asset.json",
       File ("asset " ++ new_id ++ String LF "file:/data/my%20imgs/cat.jpg"
               ++ String LF ""))]).
Proof. vm_compute. reflexivity. Qed.

(** The digest is taken of the UTF-8 bytes: U+00E9 counts as two. *)
Example md5_latin1 :
  MD5.hexdigest ("file:/data/im" ++ String "233"%char "gs/cat.jpg")
  = "55a373680c0aba6aa1e247c267bc71ba".
Proof. vm_compute. reflexivity. Qed.

(** An entry at the backup name of a file that comes before it in the listing
    is unlinked when that file is rewritten, and the pass stops when its own
    turn comes. *)
Example pass2_backup_name :
  pass2 "/proj" [] "/old" "/new"
    [("a.json", File "x"); ("a.json.bak", File "y")]
  = (Raise (FileNotFoundError "/proj/a.json.bak"), [("a.json", File "x")]).
Proof. vm_compute. reflexivity. Qed.

(** * Further properties *)

(** ** File matcher *)

Lemma matcher_ok_inv (names : list string) (directory p : string)
  (suffix : suffix_arg) :
  get_single_file_with_suffix names directory suffix = Ok p ->
  candidates names directory suffix = [p].
Proof.
  unfold get_single_file_with_suffix.
  destruct (candidates names directory suffix) as [|x [|y l]]; cbn;
    intros H; try discriminate. now injection H as ->.
Qed.

Lemma glob_star_in (names : list string) (directory suffix p : string) :
  In p (glob_star names directory suffix) ->
  exists name, In name names /\ ishidden name = false
               /\ Str.endswith name suffix = true
               /\ p = Path.join (pattern_dirname directory suffix) name.
Proof.
  unfold glob_star. intros H. apply in_map_iff in H.
  destruct H as [name [<- Hn]]. apply filter_In in Hn.
  destruct Hn as [Hin Hm]. unfold matches in Hm.
  apply andb_true_iff in Hm. destruct Hm as [Hv He].
  apply negb_true_iff in Hv. now exists name.
Qed.

(** X1. For a directory path and suffixes without the pattern characters
    [*], [?], [[], the suffixes also without "/": a path the matcher returns
    is the only candidate, and names an entry of the directory that does not
    begin with a dot and ends with a suffix that was asked for; a suffix that
    is neither a string nor a list never gives a path. *)
Theorem matcher_returns_matching_entry (names : list string)
  (directory p : string) (suffix : suffix_arg) :
  has_magic directory = false ->
  forallb literal_suffix (listed suffix) = true ->
  get_single_file_with_suffix names directory suffix = Ok p ->
  candidates names directory suffix = [p]
  /\ exists name s,
       In s (listed suffix) /\ In name names /\ ishidden name = false
       /\ Str.endswith name s = true
       /\ p = Path.join (pattern_dirname directory s) name.
Proof.
  intros _ _ H. pose proof (matcher_ok_inv _ _ _ _ H) as Hc.
  split; [exact Hc|].
  assert (Hp : In p (candidates names directory suffix))
    by (rewrite Hc; now left).
  destruct suffix as [s|l|shown]; cbn [candidates listed] in *.
  - destruct (glob_star_in _ _ _ _ Hp) as [name Hn].
    exists name, s. split; [now left | exact Hn].
  - apply in_flat_map in Hp. destruct Hp as [s [Hs Hp]].
    destruct (glob_star_in _ _ _ _ Hp) as [name Hn].
    exists name, s. split; [exact Hs | exact Hn].
  - contradiction.
Qed.

Lemma matcher_returns_matching_entry_witness :
  candidates ["a.txt"; ".b.vott"; "p.vott"] "/proj" (SuffixStr ".vott")
  = ["/proj/p.vott"].
Proof.
  destruct (matcher_returns_matching_entry ["a.txt"; ".b.vott"; "p.vott"]
              "/proj" "/proj/p.vott" (SuffixStr ".vott")) as [H _].
  - reflexivity.
  - reflexivity.
  - reflexivity.
  - exact H.
Defined.

Lemma filter_permutation {A} (f : A -> bool) (l l' : list A) :
  Permutation l l' -> Permutation (filter f l) (filter f l').
Proof.
  induction 1 as [|x l l' _ IH|x y l|l l' l'' _ IH1 _ IH2]; cbn [filter].
  - constructor.
  - destruct (f x); [now constructor | exact IH].
  - destruct (f x), (f y); try apply Permutation_refl. constructor.
  - now transitivity (filter f l').
Qed.

Lemma candidates_permutation (names names' : list string) (directory : string)
  (suffix : suffix_arg) :
  Permutation names names' ->
  Permutation (candidates names directory suffix)
    (candidates names' directory suffix).
Proof.
  intros H.
  assert (Hg : forall s, Permutation (glob_star names directory s)
                           (glob_star names' directory s)).
  { intros s. unfold glob_star. now apply Permutation_map, filter_permutation. }
  destruct suffix as [s|l|shown]; cbn [candidates].
  - apply Hg.
  - induction l as [|s l IH]; cbn [flat_map]; [constructor|].
    now apply Permutation_app.
  - constructor.
Qed.

(** X2. The answer of the matcher, a path or one of its two errors, does not
    depend on the order in which the directory lists its entries. *)
Theorem matcher_listing_order (names names' : list string)
  (directory : string) (suffix : suffix_arg) :
  Permutation names names' ->
  get_single_file_with_suffix names' directory suffix
  = get_single_file_with_suffix names directory suffix.
Proof.
  intros H.
  pose proof (candidates_permutation _ _ directory suffix H) as Hc.
  pose proof (Permutation_length Hc) as Hlen.
  unfold get_single_file_with_suffix. rewrite <- Hlen.
  destruct (candidates names directory suffix) as [|x [|y l]] eqn:E.
  - apply Permutation_nil in Hc. now rewrite Hc.
  - apply Permutation_length_1_inv in Hc. now rewrite Hc.
  - reflexivity.
Qed.

Lemma matcher_listing_order_witness :
  get_single_file_with_suffix ["p.vott"; "a.txt"] "/proj" (SuffixStr ".vott")
  = get_single_file_with_suffix ["a.txt"; "p.vott"] "/proj" (SuffixStr ".vott").
Proof.
  apply matcher_listing_order. apply perm_swap.
Defined.

Lemma candidates_by_hits (names : list string) (directory : string)
  (l : list string) :
  (forall n, In n names -> List.length (matching l n) <= 1) ->
  let found := hits names l in
  let cs := candidates names directory (SuffixList l) in
  (found = [] -> cs = [])
  /\ (2 <= List.length found -> 2 <= List.length cs)
  /\ (forall n, found = [n] ->
      exists s, In s l /\ matches s n = true
                /\ cs = [Path.join (pattern_dirname directory s) n]).
Proof.
  intros H found cs.
  pose proof (candidates_length names directory l) as Hlen.
  rewrite (hits_length _ _ H) in Hlen. fold found cs in Hlen.
  repeat split.
  - intros E. rewrite E in Hlen. now destruct cs.
  - intros E. lia.
  - intros n E. rewrite E in Hlen.
    destruct cs as [|p [|p' cs']] eqn:Ec; try discriminate.
    assert (Hp : In p (candidates names directory (SuffixList l)))
      by (fold cs; rewrite Ec; now left).
    cbn [candidates] in Hp. apply in_flat_map in Hp.
    destruct Hp as [s [Hs Hp]]. unfold glob_star in Hp.
    apply in_map_iff in Hp. destruct Hp as [m [<- Hm]].
    apply filter_In in Hm. destruct Hm as [Hm Hmatch].
    assert (Hfound : In m found).
    { unfold found, hits. apply filter_In. split; [exact Hm|].
      apply existsb_exists. now exists s. }
    rewrite E in Hfound. destruct Hfound as [<-|[]].
    now exists s.
Qed.

(** X3. For a directory path and suffixes without the pattern characters
    [*], [?], [[], the suffixes also without "/", and whatever the type of
    the suffix argument: when no entry is matched by
    two of the suffixes asked for, the matcher does what its docstring says
    over the entries that do not begin with a dot: with no entry that ends
    with a suffix asked for it raises the error for no file, with two or more
    the error for more than one, and with exactly one it returns the path of
    that entry. *)
Theorem matcher_contract (names : list string) (directory : string)
  (suffix : suffix_arg) :
  has_magic directory = false ->
  forallb literal_suffix (listed suffix) = true ->
  (forall n, In n names -> List.length (matching (listed suffix) n) <= 1) ->
  let found := hits names (listed suffix) in
  let run := get_single_file_with_suffix names directory suffix in
  (found = [] -> run = Raise (NoFileFound suffix directory))
  /\ (2 <= List.length found -> run = Raise (TooManyFiles suffix directory))
  /\ (forall n, found = [n] ->
      exists s, In s (listed suffix) /\ matches s n = true
                /\ run = Ok (Path.join (pattern_dirname directory s) n)).
Proof.
  intros _ _ H found run.
  assert (E : candidates names directory suffix
              = candidates names directory (SuffixList (listed suffix))).
  { destruct suffix as [s|l|shown]; cbn; [now rewrite app_nil_r | | ];
      reflexivity. }
  destruct (candidates_by_hits names directory (listed suffix) H)
    as [H0 [H2 H1]].
  fold found in H0, H2, H1. rewrite <- E in H0, H2, H1.
  subst run. split; [|split].
  - intros Hf. apply matcher_none. now apply H0.
  - intros Hf. apply matcher_too_many. now apply H2.
  - intros n Hf. destruct (H1 n Hf) as [s [Hs [Hm Hc]]].
    exists s. split; [exact Hs|]. split; [exact Hm|].
    now apply matcher_one.
Qed.

Lemma matcher_contract_witness :
  get_single_file_with_suffix ["a.jpg"; "notes.txt"; ".c.jpeg"] "/imgs"
    (SuffixList [".jpg"; ".jpeg"])
  = Ok "/imgs/a.jpg".
Proof.
  destruct (matcher_contract ["a.jpg"; "notes.txt"; ".c.jpeg"] "/imgs"
              (SuffixList [".jpg"; ".jpeg"])) as [_ [_ H]].
  - reflexivity.
  - reflexivity.
  - intros n [<-|[<-|[<-|[]]]]; cbn; lia.
  - destruct (H "a.jpg" eq_refl) as [s [Hs [Hm Hr]]].
    rewrite Hr. destruct Hs as [<-|[<-|[]]]; [reflexivity | discriminate Hm].
Defined.

(** ** [os.path.split] after [os.path.join] *)

Lemma take_append (a b : string) (k : nat) :
  Str.take (String.length a + k) (a ++ b) = a ++ Str.take k b.
Proof. induction a as [|c a IH]; [reflexivity|]. cbn. now rewrite IH. Qed.

Lemma rstrip_fixed (a : string) :
  Str.endswith a "/" = false -> Str.rstrip Path.sep a = a.
Proof.
  induction a as [|c a IH]; [reflexivity|].
  cbn [Str.endswith]. intros H. apply orb_false_iff in H.
  destruct H as [Hc Ha]. cbn [Str.rstrip]. rewrite (IH Ha).
  destruct a as [|c' a']; [|reflexivity].
  destruct (Ascii.eqb_spec c Path.sep) as [->|_]; [discriminate | reflexivity].
Qed.

Lemma rstrip_sep_end (a : string) :
  Str.rstrip Path.sep (a ++ "/") = Str.rstrip Path.sep a.
Proof.
  induction a as [|c a IH]; [reflexivity|].
  change (String c a ++ "/") with (String c (a ++ "/")).
  cbn [Str.rstrip]. now rewrite IH.
Qed.

Lemma rstrip_repeat (n : nat) :
  Str.rstrip Path.sep (Str.repeat Path.sep n) = "".
Proof. induction n as [|n IH]; [reflexivity|]. cbn. now rewrite IH. Qed.

(** A directory that does not end with "/" and a name without "/", joined
    and split again, come back as they were. *)
Lemma split_join (a x : string) :
  a <> "" -> Str.endswith a "/" = false -> Str.contains x "/" = false ->
  Path.join a x = a ++ "/" ++ x /\ Path.split (Path.join a x) = (a, x).
Proof.
  intros Ha He Hx.
  assert (Hj : Path.join a x = a ++ "/" ++ x).
  { unfold Path.join. rewrite (no_sep_relative x Hx), He.
    destruct (String.eqb_spec a "") as [E|_]; [contradiction | reflexivity]. }
  split; [exact Hj|]. rewrite Hj. unfold Path.split.
  assert (Hi : Str.rfind1 Path.sep (a ++ "/" ++ x) = String.length a + 1).
  { rewrite rfind1_append. cbn [append Str.rfind1].
    rewrite (rfind1_absent x Hx). reflexivity. }
  rewrite Hi, take_append, drop_append.
  change (Str.take 1 ("/" ++ x)) with "/".
  change (Str.drop 1 ("/" ++ x)) with x.
  assert (Hs : Str.rstrip Path.sep (a ++ "/") = a)
    by (rewrite rstrip_sep_end; now apply rstrip_fixed).
  destruct (String.eqb_spec (a ++ "/") "") as [E|_].
  { destruct a; discriminate. }
  destruct (String.eqb_spec (a ++ "/")
              (Str.repeat Path.sep (String.length (a ++ "/")))) as [E|_].
  { rewrite E, rstrip_repeat in Hs. congruence. }
  cbn [negb andb]. now rewrite Hs.
Qed.

(** X4. For a directory path that is not empty, does not end with "/" and
    has none of the pattern characters [*], [?], [[], a string suffix without
    them and without "/", and entries named without "/", the path the
    matcher returns is the directory, one "/" and the name of an entry that
    ends with the suffix; [os.path.split] gives back the two. *)
Theorem matcher_path_shape (names : list string) (directory suffix p : string) :
  directory <> "" -> Str.endswith directory "/" = false ->
  has_magic directory = false -> literal_suffix suffix = true ->
  Forall (fun n => Str.contains n "/" = false) names ->
  get_single_file_with_suffix names directory (SuffixStr suffix) = Ok p ->
  exists name,
    In name names /\ Str.endswith name suffix = true
    /\ p = directory ++ "/" ++ name
    /\ Path.split p = (directory, name)
    /\ Path.basename p = name.
Proof.
  intros Hd He _ Hs Hnames H.
  apply andb_true_iff in Hs. destruct Hs as [_ Hs].
  apply negb_true_iff in Hs.
  apply matcher_ok_inv in H. cbn [candidates] in H.
  assert (Hp : In p (glob_star names directory suffix))
    by (rewrite H; now left).
  destruct (glob_star_in _ _ _ _ Hp) as [name [Hin [_ [Hend Hpath]]]].
  assert (Hdn : pattern_dirname directory suffix = directory).
  { unfold pattern_dirname.
    destruct (split_join directory ("*" ++ suffix) Hd He) as [_ E];
      [exact Hs | now rewrite E]. }
  rewrite Hdn in Hpath. rewrite Forall_forall in Hnames.
  destruct (split_join directory name Hd He (Hnames name Hin)) as [Hj Hsp].
  exists name. split; [exact Hin|]. split; [exact Hend|].
  rewrite Hpath. split; [exact Hj|]. split; [exact Hsp|].
  apply basename_join. now apply Hnames.
Qed.

Lemma matcher_path_shape_witness :
  exists name,
    In name ["a.txt"; "p.vott"] /\ Str.endswith name ".vott" = true
    /\ "/proj/p.vott" = "/proj" ++ "/" ++ name
    /\ Path.split "/proj/p.vott" = ("/proj", name)
    /\ Path.basename "/proj/p.vott" = name.
Proof.
  apply (matcher_path_shape ["a.txt"; "p.vott"] "/proj" ".vott" "/proj/p.vott").
  - discriminate.
  - reflexivity.
  - reflexivity.
  - reflexivity.
  - repeat constructor.
  - reflexivity.
Defined.

(** ** Identifier mapper *)

Lemma map_assets_app (directory : string) (l1 l2 : list asset) :
  forall acc,
    map_assets directory (l1 ++ l2) acc
    = match map_assets directory l1 acc with
      | Ok m => map_assets directory l2 m
      | Raise e => Raise e
      end.
Proof.
  induction l1 as [|a l1 IH]; intros acc; [reflexivity|].
  cbn [app map_assets]. unfold result_bind.
  destruct (getitem a "name"); [|reflexivity].
  destruct (getitem a "id"); [apply IH | reflexivity].
Qed.

(** On records that have an id and a name the loop is a fold of [dict_set]. *)
Lemma map_assets_fold (directory : string) (l : list asset) :
  forall acc,
    Forall has_id_and_name l ->
    map_assets directory l acc
    = Ok (fold_left
            (fun m a => dict_set m (fst (new_entry directory a))
                          (snd (new_entry directory a))) l acc).
Proof.
  induction l as [|a l IH]; intros acc Hwf; [reflexivity|].
  inversion Hwf as [|? ? [Hid Hname] Hwf']; subst.
  cbn [map_assets fold_left]. rewrite (getitem_default a "name" Hname).
  rewrite (getitem_default a "id" Hid). cbn [result_bind].
  now rewrite IH.
Qed.

(** X5. The mapper stops at the first asset record that lacks a field it
    reads: with a KeyError for "name" when the name is missing, and with a
    KeyError for "id" when the name is there and the id is missing; no mapping
    is returned. *)
Theorem mapper_missing_field (directory : string) (v : vott)
  (records : dict asset) (before_it after_it : list asset) (a : asset) :
  assets v = Some records ->
  values records = (before_it ++ a :: after_it)%list ->
  Forall has_id_and_name before_it ->
  (dict_get a "name" = None ->
   map_old_vott_path_and_id_to_new v directory = Raise (KeyError "name"))
  /\ (dict_get a "name" <> None -> dict_get a "id" = None ->
      map_old_vott_path_and_id_to_new v directory = Raise (KeyError "id")).
Proof.
  intros Hv Hsplit Hwf.
  unfold map_old_vott_path_and_id_to_new. rewrite Hv.
  cbn [field result_bind]. rewrite Hsplit, map_assets_app.
  rewrite (map_assets_fold _ _ _ Hwf). cbn [map_assets]. unfold getitem.
  split.
  - now intros ->.
  - intros Hname Hid. destruct (dict_get a "name"); [|congruence].
    cbn [result_bind]. now rewrite Hid.
Qed.

Lemma mapper_missing_field_witness :
  map_old_vott_path_and_id_to_new
    (manifest_of [(id_a, id_a_record); (id_b, [("id", id_b)])]) "/data/imgs"
  = Raise (KeyError "name").
Proof.
  destruct (mapper_missing_field "/data/imgs"
              (manifest_of [(id_a, id_a_record); (id_b, [("id", id_b)])])
              [(id_a, id_a_record); (id_b, [("id", id_b)])]
              [id_a_record] [] [("id", id_b)]) as [H _].
  - reflexivity.
  - reflexivity.
  - repeat constructor; discriminate.
  - apply H. reflexivity.
Defined.

Lemma keys_dict_set {V} (d : dict V) (k : string) (v : V) :
  keys (dict_set d k v)
  = if in_dec string_dec k (keys d) then keys d else (keys d ++ [k])%list.
Proof.
  induction d as [|[k' v'] d IH]; [reflexivity|].
  cbn [dict_set]. destruct (String.eqb_spec k' k) as [->|Hne].
  - cbn [keys map fst]. destruct (in_dec string_dec k (k :: map fst d));
      [reflexivity | exfalso; apply n; now left].
  - change (keys ((k', v') :: dict_set d k v))
      with (k' :: keys (dict_set d k v)).
    rewrite IH. change (keys ((k', v') :: d)) with (k' :: keys d).
    destruct (in_dec string_dec k (keys d)) as [Hin|Hout],
             (in_dec string_dec k (k' :: keys d)) as [Hin'|Hout'];
      try reflexivity.
    + exfalso. apply Hout'. now right.
    + destruct Hin' as [E|Hin']; [congruence | contradiction].
Qed.

Lemma dict_set_nodup {V} (d : dict V) (k : string) (v : V) :
  NoDup (keys d) -> NoDup (keys (dict_set d k v)).
Proof.
  intros H. rewrite keys_dict_set.
  destruct (in_dec string_dec k (keys d)) as [_|Hout]; [exact H|].
  apply NoDup_app; [exact H | repeat constructor; intros [] |].
  intros x Hx [<-|[]]. contradiction.
Qed.

Lemma dict_set_length {V} (d : dict V) (k : string) (v : V) :
  List.length (dict_set d k v)
  = if in_dec string_dec k (keys d) then List.length d else S (List.length d).
Proof.
  transitivity (List.length (keys (dict_set d k v)));
    [unfold keys; now rewrite length_map|].
  rewrite keys_dict_set. unfold keys.
  destruct (in_dec string_dec k (map fst d));
    [now rewrite length_map | rewrite length_app, length_map; simpl; lia].
Qed.

Lemma mapped_nodup (directory : string) (l : list asset) :
  forall acc, NoDup (keys acc) -> NoDup (keys (mapped directory l acc)).
Proof.
  induction l as [|a l IH]; intros acc H; [exact H|].
  apply IH. now apply dict_set_nodup.
Qed.

Lemma mapped_keys (directory : string) (l : list asset) (k : string) :
  forall acc,
    In k (keys (mapped directory l acc))
    <-> In k (keys acc) \/ In k (map asset_id l).
Proof.
  induction l as [|a l IH]; intros acc; cbn [mapped fold_left map In].
  - tauto.
  - fold (mapped directory l
            (dict_set acc (fst (new_entry directory a))
               (snd (new_entry directory a)))).
    rewrite IH, keys_dict_set. cbn [new_entry fst].
    destruct (in_dec string_dec (asset_id a) (keys acc)) as [Hin|Hout].
    + split; [tauto|]. intros [H|[<-|H]]; tauto.
    + rewrite in_app_iff. cbn [In]. tauto.
Qed.

Lemma mapped_length (directory : string) (l : list asset) :
  forall acc,
    List.length (mapped directory l acc) <= List.length acc + List.length l.
Proof.
  induction l as [|a l IH]; intros acc; cbn [mapped fold_left List.length];
    [lia|].
  fold (mapped directory l
          (dict_set acc (fst (new_entry directory a))
             (snd (new_entry directory a)))).
  specialize (IH (dict_set acc (fst (new_entry directory a))
                    (snd (new_entry directory a)))).
  rewrite dict_set_length in IH.
  destruct (in_dec string_dec _ (keys acc)); lia.
Qed.

Lemma mapped_get_other (directory : string) (l : list asset) (k : string) :
  forall acc,
    ~ In k (map asset_id l) ->
    dict_get (mapped directory l acc) k = dict_get acc k.
Proof.
  induction l as [|a l IH]; intros acc H; [reflexivity|].
  cbn [mapped fold_left].
  fold (mapped directory l
          (dict_set acc (fst (new_entry directory a))
             (snd (new_entry directory a)))).
  cbn [map In] in H. rewrite IH by tauto. rewrite dict_get_set.
  cbn [new_entry fst].
  destruct (String.eqb_spec (asset_id a) k) as [E|_]; [tauto | reflexivity].
Qed.

Lemma mapped_app (directory : string) (l1 l2 : list asset) (acc : dict string) :
  mapped directory (l1 ++ l2) acc
  = mapped directory l2 (mapped directory l1 acc).
Proof. apply fold_left_app. Qed.

(** X6. On records that all have an id and a name, with ids that may repeat,
    the mapper returns a dictionary whose keys are the ids of the records,
    each once, so never more entries than records; an id is mapped to the
    digest of the candidate path of the last record that carries it, and two
    records with the same id leave fewer entries than records. *)
Theorem mapper_repeated_ids (directory : string) (v : vott)
  (records : dict asset) :
  assets v = Some records ->
  Forall has_id_and_name (values records) ->
  exists m,
    map_old_vott_path_and_id_to_new v directory = Ok m
    /\ NoDup (keys m)
    /\ (forall k, In k (keys m) <-> In k (map asset_id (values records)))
    /\ List.length m <= List.length records
    /\ (forall l1 a l2,
          values records = (l1 ++ a :: l2)%list ->
          ~ In (asset_id a) (map asset_id l2) ->
          dict_get m (asset_id a)
          = Some (MD5.hexdigest
                    (source_asset_path directory (asset_name a))))
    /\ (forall l1 a l2 b l3,
          values records = (l1 ++ a :: l2 ++ b :: l3)%list ->
          asset_id a = asset_id b ->
          List.length m < List.length records).
Proof.
  intros Hv Hwf. exists (mapped directory (values records) []).
  split; [|split; [|split; [|split; [|split]]]].
  - unfold map_old_vott_path_and_id_to_new. rewrite Hv.
    cbn [field result_bind]. now apply map_assets_fold.
  - apply mapped_nodup. constructor.
  - intros k. rewrite mapped_keys. cbn. tauto.
  - pose proof (mapped_length directory (values records) []) as H.
    unfold values in *. rewrite length_map in H. exact H.
  - intros l1 a l2 Hsplit Hlast. rewrite Hsplit, mapped_app.
    cbn [mapped fold_left].
    fold (mapped directory l2
            (dict_set (mapped directory l1 [])
               (fst (new_entry directory a)) (snd (new_entry directory a)))).
    rewrite mapped_get_other by exact Hlast.
    rewrite dict_get_set. cbn [new_entry fst snd].
    now rewrite String.eqb_refl.
  - intros l1 a l2 b l3 Hsplit Hsame.
    assert (Hn : List.length records
                 = List.length l1 + 1 + List.length l2 + 1 + List.length l3).
    { transitivity (List.length (values records));
        [unfold values; now rewrite length_map|].
      rewrite Hsplit, !length_app. cbn [List.length].
      rewrite length_app. cbn [List.length]. lia. }
    replace (l1 ++ a :: l2 ++ b :: l3)%list
      with ((l1 ++ a :: l2) ++ b :: l3)%list in Hsplit
      by (rewrite <- app_assoc; reflexivity).
    rewrite Hsplit, mapped_app. cbn [mapped fold_left].
    fold (mapped directory (l1 ++ a :: l2) []).
    fold (mapped directory l3
            (dict_set (mapped directory (l1 ++ a :: l2) [])
               (fst (new_entry directory b)) (snd (new_entry directory b)))).
    pose proof (mapped_length directory l3
                  (dict_set (mapped directory (l1 ++ a :: l2) [])
                     (fst (new_entry directory b))
                     (snd (new_entry directory b)))) as H3.
    rewrite dict_set_length in H3.
    pose proof (mapped_length directory (l1 ++ a :: l2) []) as H12.
    rewrite length_app in H12. cbn [List.length] in H12.
    destruct (in_dec string_dec (fst (new_entry directory b))
                (keys (mapped directory (l1 ++ a :: l2) []))) as [_|Hout];
      [lia|].
    exfalso. apply Hout. apply mapped_keys. right.
    cbn [new_entry fst]. rewrite <- Hsame, map_app. apply in_or_app.
    right. now left.
Qed.

Lemma mapper_repeated_ids_witness :
  exists m,
    map_old_vott_path_and_id_to_new (manifest_of id_a_twice) "/data/imgs" = Ok m
    /\ List.length m < 2
    /\ dict_get m id_a
       = Some (MD5.hexdigest (source_asset_path "/data/imgs" "dog.jpg")).
Proof.
  destruct (mapper_repeated_ids "/data/imgs" (manifest_of id_a_twice)
              id_a_twice) as [m [Hm [_ [_ [_ [Hlast Hless]]]]]].
  - reflexivity.
  - repeat constructor; discriminate.
  - exists m. split; [exact Hm|]. split.
    + apply (Hless [] (mk_asset id_a "cat.jpg" "file:/old/cat.jpg") []
               (mk_asset id_a "dog.jpg" "file:/old/dog.jpg") []);
        reflexivity.
    + apply (Hlast [mk_asset id_a "cat.jpg" "file:/old/cat.jpg"]
               (mk_asset id_a "dog.jpg" "file:/old/dog.jpg") []);
        [reflexivity | intros []].
Defined.

(** ** The old source directory of a rewritten path *)

Lemma npm_ready_empty (s : string) : npm_ready s = "" -> s = "".
Proof.
  destruct s as [|c s]; [reflexivity|]. rewrite npm_ready_cons.
  destruct (Ascii.eqb " " c); discriminate.
Qed.

Lemma endswith_cons (c : ascii) (s suf : string) :
  Str.endswith (String c s) suf = (String c s =? suf) || Str.endswith s suf.
Proof. reflexivity. Qed.

(** The canonical form ends with "/" when the path does. *)
Lemma npm_ready_endswith_sep (s : string) :
  Str.endswith (npm_ready s) "/" = Str.endswith s "/".
Proof.
  induction s as [|c s IH]; [reflexivity|].
  rewrite npm_ready_cons. destruct (Ascii.eqb_spec " " c) as [<-|Hc].
  - change ("%20" ++ npm_ready s)
      with (String "%" (String "2" (String "0" (npm_ready s)))).
    rewrite !endswith_cons, IH.
    destruct (npm_ready s), s; reflexivity.
  - rewrite !endswith_cons, IH. f_equal.
    destruct (String.eqb_spec (String c (npm_ready s)) "/") as [E|E],
             (String.eqb_spec (String c s) "/") as [E'|E']; try reflexivity.
    + exfalso. apply E'. injection E as -> Hs.
      now rewrite (npm_ready_empty s Hs).
    + exfalso. apply E. injection E' as -> ->. reflexivity.
Qed.

(** X7. The path the mapper hashes for an asset leads back to the directory it
    was made from: for a new source directory that is not empty and does not
    end with "/" and an asset name without "/", the old source directory that
    [main] would derive from "file:" + join(directory, name), with the
    directory in its canonical form, is that canonical directory. *)
Theorem old_directory_of_new_path (new_source_directory name : string) :
  new_source_directory <> "" ->
  Str.endswith new_source_directory "/" = false ->
  Str.contains name "/" = false ->
  let directory := npm_ready new_source_directory in
  source_asset_path directory name = "file:" ++ directory ++ "/" ++ name
  /\ old_source_directory_of (source_asset_path directory name) = directory.
Proof.
  intros Hd He Hn directory.
  assert (Hd' : directory <> "").
  { intros E. apply Hd. now apply npm_ready_empty. }
  assert (He' : Str.endswith directory "/" = false).
  { unfold directory. now rewrite npm_ready_endswith_sep. }
  destruct (split_join directory name Hd' He' Hn) as [Hj Hs].
  unfold source_asset_path, old_source_directory_of. split.
  - now rewrite Hj.
  - change (Str.drop 5 ("file:" ++ Path.join directory name))
      with (Path.join directory name).
    now rewrite Hs.
Qed.

Lemma old_directory_of_new_path_witness :
  source_asset_path (npm_ready "/data/my imgs") "cat.jpg"
    = "file:" ++ npm_ready "/data/my imgs" ++ "/" ++ "cat.jpg"
  /\ old_source_directory_of
       (source_asset_path (npm_ready "/data/my imgs") "cat.jpg")
     = "/data/my%20imgs".
Proof.
  apply (old_directory_of_new_path "/data/my imgs" "cat.jpg");
    [discriminate | reflexivity | reflexivity].
Defined.

(** ** Pass 1, beyond the fresh names *)

(** A rename leaves the directory as it was or moves one entry. *)
Lemma os_rename_cases (src dst : string) (cur : fs) :
  (exists r, os_rename src dst cur = (r, cur))
  \/ (Path.basename src <> Path.basename dst
      /\ os_rename src dst cur
         = (Ok tt, fs_move (Path.basename src) (Path.basename dst) cur)).
Proof.
  unfold os_rename.
  destruct (dict_get cur (Path.basename src)) as [from|];
    [|left; eexists; reflexivity].
  destruct (String.eqb_spec (Path.basename src) (Path.basename dst)) as [E|Hne];
    [left; eexists; reflexivity|].
  destruct (dict_get cur (Path.basename dst)) as [[c|[|]]|], from as [c'|e'];
    try (left; eexists; reflexivity); right; split; auto.
Qed.

Lemma rename_assets_others (t dn : string) (ids : dict string) :
  Forall (fun v => Str.contains v "/" = false) (values ids) ->
  forall (names : list string) (cur : fs) (r : result unit) (d' : fs),
    Forall (fun n => Str.contains n "/" = false) names ->
    rename_assets t ids (map (Path.join dn) names) cur = (r, d') ->
    forall k, ~ In k names -> ~ In k (map (renamed ids) names) ->
              dict_get d' k = dict_get cur k.
Proof.
  intros Hids. induction names as [|n rest IH];
    intros cur r d' Hsep Hrun k Hk Hkr.
  - cbn in Hrun. now injection Hrun as _ <-.
  - inversion Hsep as [|? ? Hn Hsep']; subst.
    cbn [map rename_assets] in Hrun. unfold bind, lift, getitem in Hrun.
    rewrite (basename_join dn n Hn) in Hrun.
    destruct (dict_get ids (Str.before "-" n)) as [new_id|] eqn:E;
      [|now injection Hrun as _ <-].
    assert (Hnew_sep : Str.contains (new_id ++ "-asset.json") "/" = false).
    { rewrite contains_sep_append. rewrite Forall_forall in Hids.
      now rewrite (Hids new_id (dict_get_value _ _ _ E)). }
    cbn [map In] in Hk, Hkr. rewrite (renamed_mapped _ _ _ E) in Hkr.
    destruct (os_rename_cases (Path.join dn n)
                (Path.join t (new_id ++ "-asset.json")) cur)
      as [[r1 H1]|[Hne H1]]; rewrite H1 in Hrun.
    + destruct r1 as [u|e]; [|now injection Hrun as _ <-].
      apply (IH cur r d' Hsep' Hrun); tauto.
    + rewrite (basename_join dn n Hn), (basename_join t _ Hnew_sep) in *.
      rewrite (IH _ r d' Hsep' Hrun) by tauto.
      rewrite dict_get_fs_move by exact Hne.
      destruct (String.eqb_spec k (new_id ++ "-asset.json")) as [->|_];
        [tauto|].
      destruct (String.eqb_spec k n) as [->|_]; [tauto | reflexivity].
Qed.

(** X8. Pass 1, whether it runs to its end or stops with an error, leaves
    every entry whose name does not end with -asset.json as it was: the same
    name holds the same file or directory, or is as absent as before. *)
Theorem pass1_keeps_other_entries (t : string) (ids : dict string)
  (d d' : fs) (r : result unit) (k : string) :
  Forall (fun n => Str.contains n "/" = false) (keys d) ->
  Forall (fun v => Str.contains v "/" = false) (values ids) ->
  pass1 t ids d = (r, d') ->
  Str.endswith k "-asset.json" = false ->
  dict_get d' k = dict_get d k.
Proof.
  intros Hsep Hids Hrun Hk. rewrite pass1_run in Hrun.
  assert (Hsel : forall n,
            In n (filter (matches "-asset.json") (listdir d)) ->
            In n (keys d) /\ Str.endswith n "-asset.json" = true).
  { intros n Hn. apply filter_In in Hn. destruct Hn as [Hin Hm].
    unfold matches in Hm. apply andb_true_iff in Hm. tauto. }
  apply (rename_assets_others t (pattern_dirname t "-asset.json") ids Hids
           (filter (matches "-asset.json") (listdir d)) d r d').
  - rewrite Forall_forall in *. intros n Hn. now apply Hsep, Hsel.
  - exact Hrun.
  - intros Hin. apply Hsel in Hin. destruct Hin as [_ He]. congruence.
  - intros Hin. apply in_map_iff in Hin. destruct Hin as [n [Hr Hn]].
    apply Hsel in Hn. destruct Hn as [_ He]. unfold renamed in Hr.
    destruct (dict_get ids (Str.before "-" n)) as [new_id|].
    + rewrite <- Hr, endswith_append in Hk. discriminate.
    + congruence.
Qed.

Lemma pass1_keeps_other_entries_witness :
  dict_get (snd (pass1 "/proj" [(id_b, id_c)] one_asset_dir)) "project.vott"
  = dict_get one_asset_dir "project.vott".
Proof.
  apply (pass1_keeps_other_entries "/proj" [(id_b, id_c)] one_asset_dir
           (snd (pass1 "/proj" [(id_b, id_c)] one_asset_dir))
           (fst (pass1 "/proj" [(id_b, id_c)] one_asset_dir))
           "project.vott").
  - repeat constructor.
  - repeat constructor.
  - apply surjective_pairing.
  - reflexivity.
Defined.

(** X9. In a target directory whose path has none of the pattern characters
    [*], [?], [[], two files that Pass 1 takes and whose names have the same
    text before the first "-" are renamed to one name: the second rename replaces the
    file the first one made. After the pass the new name holds the text of the
    second file, both old names are gone, and the text of the first file is
    under no name the pass has touched. *)
Theorem pass1_same_identifier_overwrites (t : string) (ids : dict string)
  (d : fs) (n1 n2 c1 c2 new_id : string) :
  has_magic t = false ->
  NoDup (keys d) ->
  Forall (fun n => Str.contains n "/" = false) (keys d) ->
  Forall (fun v => Str.contains v "/" = false) (values ids) ->
  filter (matches "-asset.json") (listdir d) = [n1; n2] ->
  dict_get d n1 = Some (File c1) ->
  dict_get d n2 = Some (File c2) ->
  Str.before "-" n1 = Str.before "-" n2 ->
  dict_get ids (Str.before "-" n1) = Some new_id ->
  ~ In (new_id ++ "-asset.json") (keys d) ->
  exists d',
    pass1 t ids d = (Ok tt, d')
    /\ forall k,
         dict_get d' k
         = if k =? new_id ++ "-asset.json" then Some (File c2)
           else if (k =? n1) || (k =? n2) then None
           else dict_get d k.
Proof.
  intros _ Hnd Hsep Hids Hsel H1 H2 Hsame Hmap Hfree.
  remember (new_id ++ "-asset.json") as r eqn:Er.
  remember (pattern_dirname t "-asset.json") as dn eqn:Edn.
  assert (Hin : forall n, In n [n1; n2] -> In n (keys d)).
  { intros n Hn. rewrite <- Hsel in Hn. now apply filter_In in Hn. }
  assert (Hs1 : Str.contains n1 "/" = false).
  { rewrite Forall_forall in Hsep. apply Hsep, Hin. now left. }
  assert (Hs2 : Str.contains n2 "/" = false).
  { rewrite Forall_forall in Hsep. apply Hsep, Hin. right. now left. }
  assert (Hr : Str.contains r "/" = false).
  { rewrite Er, contains_sep_append. rewrite Forall_forall in Hids.
    now rewrite (Hids new_id (dict_get_value _ _ _ Hmap)). }
  assert (H12 : n1 <> n2).
  { assert (Hn : NoDup [n1; n2])
      by (rewrite <- Hsel; now apply NoDup_filter).
    inversion Hn as [|? ? Hx _]; subst. intros E. apply Hx. now left. }
  assert (H1r : n1 <> r) by (intros E; apply Hfree; rewrite <- E; apply Hin; now left).
  assert (H2r : n2 <> r)
    by (intros E; apply Hfree; rewrite <- E; apply Hin; right; now left).
  assert (Hfree' : dict_get d r = None) by now apply dict_get_none.
  exists (fs_move n2 r (fs_move n1 r d)). split.
  - rewrite pass1_run, Hsel, <- Edn. cbn [map rename_assets].
    unfold bind, lift, getitem, ret.
    rewrite !(basename_join dn _ Hs1), Hmap, <- Er.
    rewrite os_rename_free;
      rewrite ?(basename_join dn _ Hs1), ?(basename_join t _ Hr);
      [|congruence | exact Hfree'].
    rewrite !(basename_join dn _ Hs2), <- Hsame, Hmap, <- Er.
    unfold os_rename.
    rewrite (basename_join dn _ Hs2), (basename_join t _ Hr).
    rewrite !dict_get_fs_move by exact H1r.
    rewrite String.eqb_refl, H1.
    destruct (String.eqb_spec n2 r) as [E|_]; [contradiction|].
    destruct (String.eqb_spec n2 n1) as [E|_]; [congruence|].
    now rewrite H2.
  - intros k. rewrite !dict_get_fs_move by assumption.
    destruct (String.eqb_spec k r) as [->|Hkr].
    + destruct (String.eqb_spec n2 r) as [E|_]; [contradiction|].
      destruct (String.eqb_spec n2 n1) as [E|_]; [congruence | exact H2].
    + destruct (String.eqb_spec k n2) as [->|Hk2]; [now rewrite orb_true_r|].
      rewrite orb_false_r. reflexivity.
Qed.

Lemma pass1_same_identifier_overwrites_witness :
  exists d',
    pass1 "/proj" [(id_a, id_b)] shared_prefix_dir = (Ok tt, d')
    /\ dict_get d' (id_b ++ "-asset.json") = Some (File "second")
    /\ dict_get d' (id_a ++ "-asset.json") = None
    /\ dict_get d' (id_a ++ "-copy-asset.json") = None.
Proof.
  destruct (pass1_same_identifier_overwrites "/proj" [(id_a, id_b)]
              shared_prefix_dir (id_a ++ "-asset.json")
              (id_a ++ "-copy-asset.json") "first" "second" id_b)
    as [d' [Hrun Hget]]; try reflexivity.
  - repeat constructor; cbn; intuition discriminate.
  - repeat constructor.
  - repeat constructor.
  - cbn. intuition discriminate.
  - exists d'. split; [exact Hrun|]. rewrite !Hget. repeat split.
Defined.

Lemma rename_assets_in_place (t dn : string) (ids : dict string) (cur : fs) :
  Forall (fun v => Str.contains v "/" = false) (values ids) ->
  forall names : list string,
    (forall n, In n names ->
       In n (keys cur) /\ Str.contains n "/" = false
       /\ dict_get ids (Str.before "-" n) <> None /\ renamed ids n = n) ->
    rename_assets t ids (map (Path.join dn) names) cur = (Ok tt, cur).
Proof.
  intros Hids. induction names as [|n rest IH]; intros H; [reflexivity|].
  destruct (H n (or_introl eq_refl)) as [Hin [Hn [Hmap Hsame]]].
  destruct (dict_get ids (Str.before "-" n)) as [new_id|] eqn:E;
    [|congruence].
  rewrite (renamed_mapped _ _ _ E) in Hsame.
  assert (Hnew_sep : Str.contains (new_id ++ "-asset.json") "/" = false)
    by now rewrite Hsame.
  cbn [map rename_assets]. unfold bind, lift, getitem.
  rewrite (basename_join dn n Hn), E. unfold os_rename.
  rewrite (basename_join dn n Hn), (basename_join t _ Hnew_sep), Hsame.
  rewrite String.eqb_refl.
  destruct (dict_get cur n) eqn:Ec.
  - apply IH. intros m Hm. apply H. now right.
  - apply dict_get_none in Ec. contradiction.
Qed.

(** X10. In a target directory whose path has none of the pattern
    characters [*], [?], [[]: when every entry that Pass 1 takes is mapped
    and already bears the name the pass would give it (the new identifier is the old one), the pass
    ends without an error and the directory is as it was. *)
Theorem pass1_names_already_new (t : string) (ids : dict string) (d : fs) :
  has_magic t = false ->
  Forall (fun n => Str.contains n "/" = false) (keys d) ->
  Forall (fun v => Str.contains v "/" = false) (values ids) ->
  (forall n, In n (filter (matches "-asset.json") (listdir d)) ->
     dict_get ids (Str.before "-" n) <> None /\ renamed ids n = n) ->
  pass1 t ids d = (Ok tt, d).
Proof.
  intros _ Hsep Hids H. rewrite pass1_run.
  apply rename_assets_in_place; [exact Hids|].
  intros n Hn. destruct (H n Hn) as [Hmap Hsame].
  apply filter_In in Hn. destruct Hn as [Hin _].
  rewrite Forall_forall in Hsep. repeat split; auto.
Qed.

Lemma pass1_names_already_new_witness :
  pass1 "/proj" [(id_a, id_a)] one_asset_dir = (Ok tt, one_asset_dir).
Proof.
  apply pass1_names_already_new.
  - reflexivity.
  - repeat constructor.
  - repeat constructor.
  - intros n [<-|[]]. split; [discriminate | reflexivity].
Defined.

(** ** Pass 2, entry by entry *)

Lemma dict_get_in_keys {V} (d : dict V) (k : string) :
  In k (keys d) <-> dict_get d k <> None.
Proof.
  split.
  - intros Hin Hnone. now apply dict_get_none in Hnone.
  - intros H. destruct (in_dec string_dec k (keys d)) as [Hin|Hout];
      [exact Hin|]. apply dict_get_none in Hout. contradiction.
Qed.

(** What Pass 2 leaves under every name, in a directory where no entry has
    the backup name of another. *)
Lemma pass2_pointwise (t : string) (ids : dict string) (old new : string)
  (d : fs) :
  NoDup (keys d) ->
  Forall (fun n => Str.contains n "/" = false) (keys d) ->
  (forall n, In n (keys d) -> ~ In (n ++ ".bak") (keys d)) ->
  exists d',
    pass2 t ids old new d = (Ok tt, d')
    /\ forall k,
         dict_get d' k
         = match dict_get d k with
           | Some (File c) =>
               if ishidden k then Some (File c)
               else Some (File (rewrite_content ids old new c))
           | other => other
           end.
Proof.
  intros Hnd Hsep Hbak.
  pose (dn := pattern_dirname t "").
  pose (names := filter (fun n => isfile d (Path.join dn n))
                   (filter (matches "") (keys d))).
  assert (Hkeys : forall n, In n names -> In n (keys d)).
  { intros n Hn. unfold names in Hn. rewrite !filter_In in Hn. tauto. }
  assert (Hnames : forall n, In n names <->
            ishidden n = false /\ exists c, dict_get d n = Some (File c)).
  { intros n. unfold names. rewrite !filter_In. unfold matches, isfile, entry.
    rewrite endswith_nil, andb_true_r, negb_true_iff. split.
    - intros [[Hin Hv] Hr]. split; [exact Hv|].
      rewrite Forall_forall in Hsep.
      rewrite (basename_join dn n (Hsep n Hin)) in Hr.
      destruct (dict_get d n) as [[c|e]|]; try discriminate. now exists c.
    - intros [Hv [c Hc]].
      assert (Hin : In n (keys d)) by (apply dict_get_in_keys; congruence).
      rewrite Forall_forall in Hsep.
      rewrite (basename_join dn n (Hsep n Hin)), Hc. tauto. }
  destruct (rewrite_files_all dn ids old new names d)
    as [d' [Hrun [Hdone Hother]]].
  - rewrite Forall_forall in *. intros n Hn. now apply Hsep, Hkeys.
  - unfold names. now apply NoDup_filter, NoDup_filter.
  - intros n Hn. now apply Hnames in Hn.
  - intros n Hn. apply dict_get_none. now apply Hbak, Hkeys.
  - exists d'. split.
    + unfold pass2, bind, get_names, glob_star. rewrite filter_map_swap.
      exact Hrun.
    + intros k. destruct (dict_get d k) as [[c|e]|] eqn:Ek.
      * destruct (ishidden k) eqn:Eh.
        -- rewrite Hother; [exact Ek|]. intros Hin. apply Hnames in Hin.
           destruct Hin as [Hv _]. congruence.
        -- apply Hdone; [|exact Ek]. apply Hnames. split; [exact Eh|].
           now exists c.
      * rewrite Hother; [exact Ek|]. intros Hin. apply Hnames in Hin.
        destruct Hin as [_ [c Hc]]. congruence.
      * rewrite Hother; [exact Ek|]. intros Hin. apply Hnames in Hin.
        destruct Hin as [_ [c Hc]]. congruence.
Qed.

(** X11. In a target directory whose path is not empty and has none of the
    pattern characters [*], [?], [[], and where no entry has the backup name
    (<name>.bak) of another, Pass 2 ends without an error; every regular file whose name does
    not begin with a dot holds its text rewritten line by line; files whose
    name begins with a dot and directories are as they were; and the
    directory has the same names as before: no entry is added and none is
    lost, no backup file is left. *)
Theorem pass2_rewrites_visible_files (t : string) (ids : dict string)
  (old new : string) (d : fs) :
  t <> "" -> has_magic t = false ->
  NoDup (keys d) ->
  Forall (fun n => Str.contains n "/" = false) (keys d) ->
  (forall n, In n (keys d) -> ~ In (n ++ ".bak") (keys d)) ->
  exists d',
    pass2 t ids old new d = (Ok tt, d')
    /\ (forall n c, ishidden n = false -> dict_get d n = Some (File c) ->
          dict_get d' n = Some (File (rewrite_content ids old new c)))
    /\ (forall n, ishidden n = true -> dict_get d' n = dict_get d n)
    /\ (forall n e, dict_get d n = Some (Dir e) -> dict_get d' n = Some (Dir e))
    /\ (forall n, In n (keys d') <-> In n (keys d)).
Proof.
  intros _ _ Hnd Hsep Hbak.
  destruct (pass2_pointwise t ids old new d Hnd Hsep Hbak) as [d' [Hrun Hget]].
  exists d'. split; [exact Hrun|]. repeat split.
  - intros n c Hv Hc. now rewrite Hget, Hc, Hv.
  - intros n Hv. rewrite Hget, Hv. now destruct (dict_get d n) as [[c|e]|].
  - intros n e He. now rewrite Hget, He.
  - rewrite !dict_get_in_keys, Hget.
    destruct (dict_get d n) as [[c|e]|]; [destruct (ishidden n)| |];
      congruence.
  - rewrite !dict_get_in_keys, Hget.
    destruct (dict_get d n) as [[c|e]|]; [destruct (ishidden n)| |];
      congruence.
Qed.

Lemma pass2_rewrites_visible_files_witness :
  exists d',
    pass2 "/proj" [(id_a, id_b)] "/home/alice/imgs" "/data/imgs" cat_project
    = (Ok tt, d')
    /\ dict_get d' "project.vott"
       = Some (File ("id " ++ id_b ++ " path file:/data/imgs/cat.jpg"))
    /\ dict_get d' ".cache" = Some (File id_a)
    /\ dict_get d' "exports" = Some (Dir false).
Proof.
  destruct (pass2_rewrites_visible_files "/proj" [(id_a, id_b)]
              "/home/alice/imgs" "/data/imgs" cat_project)
    as [d' [Hrun [Hfile [Hdot [Hdir _]]]]].
  - discriminate.
  - reflexivity.
  - repeat constructor; cbn; intuition discriminate.
  - repeat constructor.
  - intros n [<-|[<-|[<-|[<-|[]]]]]; cbn; intuition discriminate.
  - exists d'. split; [exact Hrun|]. split; [|split].
    + rewrite (Hfile "project.vott"
                 ("id " ++ id_a ++ " path file:/home/alice/imgs/cat.jpg"));
        reflexivity.
    + now rewrite Hdot.
    + now apply Hdir.
Defined.

(** ** Lines *)

(** The lines of a text, put end to end, are the text. *)
Lemma lines_concat (s : string) : Str.concat (lines s) = s.
Proof.
  induction s as [|c s IH]; [reflexivity|].
  cbn [lines]. destruct (Ascii.eqb c LF).
  - cbn [Str.concat append]. now rewrite IH.
  - destruct (lines s) as [|l ls].
    + cbn in IH. now rewrite <- IH.
    + cbn [Str.concat append] in *. now rewrite IH.
Qed.

Lemma contains_char_cons (a c : ascii) (s : string) :
  Str.contains (String c s) (String a "")
  = Ascii.eqb a c || Str.contains s (String a "").
Proof.
  cbn [Str.contains]. rewrite prefix_cons, prefix_nil.
  now destruct (Ascii.eqb a c).
Qed.

Lemma universal_newlines_no_cr_upto (n : nat) :
  forall s, String.length s <= n ->
            Str.contains (universal_newlines s) (String CR "") = false.
Proof.
  induction n as [|n IH]; intros s Hlen.
  - destruct s; [reflexivity | simpl in Hlen; lia].
  - destruct s as [|c s]; [reflexivity|]. simpl in Hlen.
    cbn [universal_newlines]. destruct (Ascii.eqb_spec c CR) as [->|Hc].
    + destruct s as [|c' s'].
      * reflexivity.
      * simpl in Hlen. destruct (Ascii.eqb c' LF);
          rewrite contains_char_cons; cbn [CR LF Ascii.eqb Bool.eqb orb];
          apply IH; simpl; lia.
    + rewrite contains_char_cons.
      destruct (Ascii.eqb_spec CR c) as [E|_]; [congruence|].
      apply IH. lia.
Qed.

Lemma universal_newlines_fixed (s : string) :
  Str.contains s (String CR "") = false -> universal_newlines s = s.
Proof.
  induction s as [|c s IH]; [reflexivity|].
  rewrite contains_char_cons. intros H. apply orb_false_iff in H.
  destruct H as [Hc Hs]. cbn [universal_newlines].
  rewrite Ascii.eqb_sym, Hc. now rewrite IH.
Qed.

(** X12. A file in which no line contains an old identifier or the old source
    directory is written back by Pass 2 with nothing changed but its line
    ends: the text is the one read in text mode, without any carriage
    return, and a file that had none is written back as it was. *)
Theorem rewrite_content_without_patterns (ids : dict string)
  (old new content : string) :
  (forall line o, In line (lines (universal_newlines content)) ->
                  In o (keys ids) -> Str.contains line o = false) ->
  (forall line, In line (lines (universal_newlines content)) ->
                Str.contains line old = false) ->
  rewrite_content ids old new content = universal_newlines content
  /\ Str.contains (rewrite_content ids old new content) (String CR "") = false
  /\ (Str.contains content (String CR "") = false ->
      rewrite_content ids old new content = content).
Proof.
  intros Hids Hold.
  assert (E : rewrite_content ids old new content = universal_newlines content).
  { unfold rewrite_content.
    rewrite <- (lines_concat (universal_newlines content)) at 2.
    f_equal. rewrite <- (map_id (lines (universal_newlines content))) at 2.
    apply map_ext_in. intros line Hline. unfold rewrite_line.
    rewrite rewrite_ids_absent by (intros o Ho; now apply Hids).
    apply replace_absent. now apply Hold. }
  split; [exact E|]. split.
  - rewrite E. now apply (universal_newlines_no_cr_upto (String.length content)).
  - intros Hcr. rewrite E. now apply universal_newlines_fixed.
Qed.

Lemma rewrite_content_without_patterns_witness :
  rewrite_content [(id_a, id_b)] "/home/alice" "/data"
    ("tags" ++ String CR (String LF "end"))
  = "tags" ++ String LF "end".
Proof.
  destruct (rewrite_content_without_patterns [(id_a, id_b)] "/home/alice"
              "/data" ("tags" ++ String CR (String LF "end"))) as [H _].
  - intros line o [<-|[<-|[]]] [<-|[]]; reflexivity.
  - intros line [<-|[<-|[]]]; reflexivity.
  - rewrite H. reflexivity.
Defined.

(** ** The run, before the passes *)

(** X13. For a target directory whose path has none of the pattern
    characters [*], [?], [[]: without exactly one project file the run stops
    before anything is changed: with no entry that ends with .vott (and does not begin with a
    dot) it raises the error for no file, with two or more it raises the error
    for more than one file, and when the only such entry is a directory it
    raises IsADirectoryError; the directory is left as it was. *)
Theorem main_without_project_file (json_load : string -> result vott)
  (new_source_directory target_directory : string) (d : fs) :
  has_magic target_directory = false ->
  Forall (fun n => Str.contains n "/" = false) (keys d) ->
  let found := filter (matches ".vott") (listdir d) in
  let run := main json_load new_source_directory target_directory d in
  (found = [] ->
   run = (Raise (NoFileFound (SuffixStr ".vott") target_directory), d))
  /\ (2 <= List.length found ->
      run = (Raise (TooManyFiles (SuffixStr ".vott") target_directory), d))
  /\ (forall n e, found = [n] -> dict_get d n = Some (Dir e) ->
      run = (Raise (IsADirectoryError
                      (Path.join (pattern_dirname target_directory ".vott") n)),
             d)).
Proof.
  intros _ Hsep found run. subst run. unfold main, bind, get_names, lift.
  split; [|split].
  - intros E. rewrite matcher_none; [reflexivity|].
    cbn [candidates]. unfold glob_star. fold found. now rewrite E.
  - intros E. rewrite matcher_too_many; [reflexivity|].
    cbn [candidates]. unfold glob_star. fold found. now rewrite length_map.
  - intros n e E Hn.
    rewrite (matcher_one _ _
               (Path.join (pattern_dirname target_directory ".vott") n)).
    + unfold read_text, entry.
      assert (Hin : In n (keys d)).
      { assert (H : In n found) by (rewrite E; now left).
        unfold found in H. now apply filter_In in H. }
      rewrite Forall_forall in Hsep.
      now rewrite (basename_join _ n (Hsep n Hin)), Hn.
    + cbn [candidates]. unfold glob_star. fold found. now rewrite E.
Qed.

Lemma main_without_project_file_witness :
  main (fun _ => Ok (manifest_of [])) "/data/imgs" "/proj"
    [("a.vott", File "{ }"); ("b.vott", File "{ }")]
  = (Raise (TooManyFiles (SuffixStr ".vott") "/proj"),
     [("a.vott", File "{ }"); ("b.vott", File "{ }")]).
Proof.
  destruct (main_without_project_file (fun _ => Ok (manifest_of []))
              "/data/imgs" "/proj"
              [("a.vott", File "{ }"); ("b.vott", File "{ }")])
    as [_ [H _]].
  - reflexivity.
  - repeat constructor.
  - apply H. cbn. lia.
Defined.

(** X14. With the project file found and read, a manifest that cannot be used
    stops the run before anything is changed: the error of [json.load] is
    passed on; a manifest without "assets" gives a KeyError for it; a first
    asset without "path" gives a KeyError for "path", before the mapper is
    called; and an error of the mapper is passed on. The directory is left as
    it was. *)
Theorem main_malformed_manifest (json_load : string -> result vott)
  (new_source_directory target_directory vott_file text : string) (d : fs) :
  get_single_file_with_suffix (listdir d) target_directory (SuffixStr ".vott")
    = Ok vott_file ->
  read_text vott_file d = (Ok text, d) ->
  let run := main json_load new_source_directory target_directory d in
  (forall e, json_load text = Raise e -> run = (Raise e, d))
  /\ (forall v, json_load text = Ok v -> assets v = None ->
      run = (Raise (KeyError "assets"), d))
  /\ (forall v k first rest,
        json_load text = Ok v -> assets v = Some ((k, first) :: rest) ->
        dict_get first "path" = None ->
        run = (Raise (KeyError "path"), d))
  /\ (forall v k first rest e,
        json_load text = Ok v -> assets v = Some ((k, first) :: rest) ->
        dict_get first "path" <> None ->
        map_old_vott_path_and_id_to_new v (npm_ready new_source_directory)
          = Raise e ->
        run = (Raise e, d)).
Proof.
  intros Hfile Hread run. subst run. unfold main, bind, get_names, lift.
  rewrite Hfile, Hread. split; [|split; [|split]].
  - now intros e ->.
  - now intros v -> ->.
  - intros v k first rest -> -> Hpath. cbn [field values map snd].
    unfold getitem. now rewrite Hpath.
  - intros v k first rest e -> Ha Hpath Hmap. rewrite Ha.
    cbn [field values map snd]. unfold getitem.
    destruct (dict_get first "path"); [|congruence]. now rewrite Hmap.
Qed.

Lemma main_malformed_manifest_witness :
  main (fun _ => Ok (manifest_of [(id_a, [("id", id_a); ("name", "cat.jpg")])]))
    "/data/imgs" "/proj" one_asset_dir
  = (Raise (KeyError "path"), one_asset_dir).
Proof.
  destruct (main_malformed_manifest
              (fun _ => Ok (manifest_of
                              [(id_a, [("id", id_a); ("name", "cat.jpg")])]))
              "/data/imgs" "/proj" "/proj/project.vott" "{ }" one_asset_dir)
    as [_ [_ [H _]]].
  - reflexivity.
  - reflexivity.
  - apply (H (manifest_of [(id_a, [("id", id_a); ("name", "cat.jpg")])])
             id_a [("id", id_a); ("name", "cat.jpg")] []); reflexivity.
Defined.

(** ** The whole run *)

Lemma keys_fs_move (src dst : string) (d : fs) :
  keys (fs_move src dst d)
  = map (fun k => if k =? src then dst else k)
      (filter (fun k => negb (k =? dst)) (keys d)).
Proof.
  unfold fs_move, keys.
  induction d as [|[n x] d IH]; [reflexivity|].
  cbn [filter map fst]. destruct (n =? dst); cbn [negb map fst];
    [exact IH|]. rewrite IH. now destruct (n =? src).
Qed.

Lemma fs_move_nodup (src dst : string) (d : fs) :
  NoDup (keys d) -> NoDup (keys (fs_move src dst d)).
Proof.
  intros H. rewrite keys_fs_move. apply NoDup_map_on.
  - intros x y Hx Hy. apply filter_In in Hx, Hy.
    destruct Hx as [_ Hx], Hy as [_ Hy].
    apply negb_true_iff in Hx, Hy.
    apply String.eqb_neq in Hx, Hy.
    destruct (String.eqb_spec x src) as [->|_],
             (String.eqb_spec y src) as [->|_]; congruence.
  - now apply NoDup_filter.
Qed.

Lemma rename_assets_nodup (t : string) (ids : dict string) :
  forall (paths : list string) (cur : fs) (r : result unit) (d' : fs),
    NoDup (keys cur) ->
    rename_assets t ids paths cur = (r, d') -> NoDup (keys d').
Proof.
  induction paths as [|p rest IH]; intros cur r d' Hnd Hrun.
  - cbn in Hrun. now injection Hrun as _ <-.
  - cbn [rename_assets] in Hrun. unfold bind, lift in Hrun.
    destruct (getitem ids _) as [new_id|e]; [|now injection Hrun as _ <-].
    destruct (os_rename_cases p (Path.join t (new_id ++ "-asset.json")) cur)
      as [[r1 H1]|[_ H1]]; rewrite H1 in Hrun.
    + destruct r1 as [u|e]; [|now injection Hrun as _ <-].
      now apply (IH cur r d').
    + apply (IH _ r d' (fs_move_nodup _ _ _ Hnd) Hrun).
Qed.

Lemma values_dict_set {V} (d : dict V) (k : string) (v w : V) :
  In w (values (dict_set d k v)) -> w = v \/ In w (values d).
Proof.
  induction d as [|[k' v'] d IH]; cbn [dict_set values map snd In].
  - intros [<-|[]]. now left.
  - destruct (k' =? k); cbn [map snd In].
    + intros [<-|H]; [now left | right; now right].
    + intros [<-|H]; [right; now left|].
      destruct (IH H) as [->|Hin]; [now left | right; now right].
Qed.

Lemma mapped_values (directory : string) (l : list asset) (w : string) :
  forall acc,
    In w (values (mapped directory l acc)) ->
    In w (values acc) \/ exists path, w = MD5.hexdigest path.
Proof.
  induction l as [|a l IH]; intros acc H; [now left|].
  cbn [mapped fold_left] in H.
  destruct (IH _ H) as [Hin|Hex]; [|now right].
  apply values_dict_set in Hin. destruct Hin as [->|Hin]; [|now left].
  right. cbn [new_entry snd]. eexists. reflexivity.
Qed.

Lemma lower_hex_no_sep (s : string) :
  Str.all is_lower_hex s = true -> Str.contains s "/" = false.
Proof.
  induction s as [|c s IH]; [reflexivity|].
  cbn [Str.all]. intros H. apply andb_true_iff in H. destruct H as [Hc Hs].
  rewrite contains_sep_cons, (IH Hs).
  destruct (Ascii.eqb_spec "/" c) as [<-|_]; [discriminate | reflexivity].
Qed.

Lemma hexdigest_no_sep (path : string) :
  Str.contains (MD5.hexdigest path) "/" = false.
Proof. apply lower_hex_no_sep, hexdigest_lower. Qed.

Lemma hexdigest_visible (path rest : string) :
  ishidden (MD5.hexdigest path ++ rest) = false.
Proof.
  pose proof (hexdigest_length path) as Hlen.
  pose proof (hexdigest_lower path) as Hlow.
  destruct (MD5.hexdigest path) as [|c s]; [discriminate|].
  cbn [Str.all] in Hlow. apply andb_true_iff in Hlow. destruct Hlow as [Hc _].
  unfold ishidden, Str.startswith.
  change (String c s ++ rest) with (String c (s ++ rest)).
  rewrite prefix_cons.
  destruct (Ascii.eqb_spec "." c) as [<-|_]; [discriminate | reflexivity].
Qed.

Lemma closing_run (v : vott) (d : fs) :
  (source <- lift (field "sourceConnection" (sourceConnection v)) ;;
   _ <- lift (getitem source "name") ;;
   target <- lift (field "targetConnection" (targetConnection v)) ;;
   _ <- lift (getitem target "name") ;;
   _ <- lift (field "securityToken" (securityToken v)) ;;
   ret tt)%io d
  = (closing v, d).
Proof.
  unfold closing, bind, lift, ret, result_bind.
  destruct (field "sourceConnection" (sourceConnection v)) as [sc|];
    [|reflexivity].
  destruct (getitem sc "name"); [|reflexivity].
  destruct (field "targetConnection" (targetConnection v)) as [tc|];
    [|reflexivity].
  destruct (getitem tc "name"); [|reflexivity].
  now destruct (field "securityToken" (securityToken v)).
Qed.

(** The run as the sequence of its parts, each with the result it had. *)
Lemma main_steps (json_load : string -> result vott)
  (new_source_directory t vott_file text path_value : string) (v : vott)
  (records : dict asset) (first : asset) (others : list asset)
  (ids : dict string) (d d1 d2 : fs) :
  get_single_file_with_suffix (listdir d) t (SuffixStr ".vott") = Ok vott_file ->
  read_text vott_file d = (Ok text, d) ->
  json_load text = Ok v ->
  assets v = Some records ->
  values records = first :: others ->
  dict_get first "path" = Some path_value ->
  map_old_vott_path_and_id_to_new v (npm_ready new_source_directory) = Ok ids ->
  pass1 t ids d = (Ok tt, d1) ->
  pass2 t ids (old_source_directory_of path_value)
    (npm_ready new_source_directory) d1 = (Ok tt, d2) ->
  main json_load new_source_directory t d = (closing v, d2).
Proof.
  intros Hfile Hread Hload Ha Hfirst Hpath Hmap H1 H2.
  unfold main. unfold bind at 1, get_names. unfold bind at 1, lift at 1.
  rewrite Hfile. unfold bind at 1. rewrite Hread.
  unfold bind at 1, lift at 1. rewrite Hload.
  unfold bind at 1, lift at 1. rewrite Ha. cbn [field].
  unfold bind at 1, lift at 1. rewrite Hfirst.
  unfold bind at 1, lift at 1, getitem at 1. rewrite Hpath.
  unfold bind at 1, lift at 1. rewrite Hmap.
  unfold bind at 1. rewrite H1. unfold bind at 1. rewrite H2.
  apply closing_run.
Qed.

Lemma bak_not_asset (a b : string) : a ++ ".bak" <> b ++ "-asset.json".
Proof.
  intros E.
  apply (f_equal (fun s => Str.drop (String.length s - 1) s)) in E.
  rewrite !length_append in E. cbn [String.length] in E.
  replace (String.length a + 4 - 1) with (String.length a + 3) in E by lia.
  replace (String.length b + 11 - 1) with (String.length b + 10) in E by lia.
  rewrite !drop_append in E. discriminate E.
Qed.

(** The two passes of a run on a project whose asset files are all in the
    manifest and get names that are new. *)
Lemma main_passes (json_load : string -> result vott)
  (new_source_directory t vott_file text path_value : string) (v : vott)
  (records : dict asset) (first : asset) (others : list asset) (d : fs) :
  NoDup (keys d) ->
  Forall (fun n => Str.contains n "/" = false) (keys d) ->
  (forall n, In n (keys d) -> Str.endswith n ".bak" = false) ->
  get_single_file_with_suffix (listdir d) t (SuffixStr ".vott") = Ok vott_file ->
  read_text vott_file d = (Ok text, d) ->
  json_load text = Ok v ->
  assets v = Some records ->
  values records = first :: others ->
  dict_get first "path" = Some path_value ->
  Forall has_id_and_name (values records) ->
  let new := npm_ready new_source_directory in
  let old := old_source_directory_of path_value in
  let ids := mapped new (values records) [] in
  let selected := filter (matches "-asset.json") (listdir d) in
  (forall n, In n selected ->
     In (Str.before "-" n) (map asset_id (values records))) ->
  NoDup (map (renamed ids) selected) ->
  (forall n, In n selected -> ~ In (renamed ids n) (keys d)) ->
  exists d',
    main json_load new_source_directory t d = (closing v, d')
    /\ (forall n, In n selected ->
          dict_get d' (renamed ids n)
          = option_map (rewritten ids old new n) (dict_get d n)
          /\ dict_get d' n = None)
    /\ (forall k, ~ In k selected -> ~ In k (map (renamed ids) selected) ->
          dict_get d' k = option_map (rewritten ids old new k) (dict_get d k)).
Proof.
  intros Hnd Hsep Hbak Hfile Hread Hload Ha Hfirst Hpath Hwf
         new old ids selected Hknown Hnew Hfree.
  assert (Hmapper : map_old_vott_path_and_id_to_new v new = Ok ids).
  { unfold map_old_vott_path_and_id_to_new. rewrite Ha.
    cbn [field result_bind]. now apply map_assets_fold. }
  assert (Hdigest : forall w, In w (values ids) ->
                      exists path, w = MD5.hexdigest path).
  { intros w Hw. destruct (mapped_values _ _ _ _ Hw) as [[]|H]. exact H. }
  assert (Hids : Forall (fun w => Str.contains w "/" = false) (values ids)).
  { apply Forall_forall. intros w Hw. destruct (Hdigest w Hw) as [path ->].
    apply hexdigest_no_sep. }
  assert (Hmapped : forall n, In n selected ->
            exists path,
              dict_get ids (Str.before "-" n) = Some (MD5.hexdigest path)).
  { intros n Hn.
    assert (Hk : In (Str.before "-" n) (keys ids)).
    { apply mapped_keys. right. now apply Hknown. }
    apply dict_get_in_keys in Hk.
    destruct (dict_get ids (Str.before "-" n)) as [w|] eqn:E; [|congruence].
    destruct (Hdigest w (dict_get_value _ _ _ E)) as [path ->].
    now exists path. }
  assert (Hsel : forall n, In n selected ->
            In n (keys d) /\ ishidden n = false).
  { intros n Hn. apply filter_In in Hn. destruct Hn as [Hin Hm].
    unfold matches in Hm. apply andb_true_iff in Hm.
    destruct Hm as [Hv _]. apply negb_true_iff in Hv. tauto. }
  assert (Hrenamed : forall n, In n selected ->
            Str.contains (renamed ids n) "/" = false
            /\ ishidden (renamed ids n) = false
            /\ exists x, renamed ids n = x ++ "-asset.json").
  { intros n Hn. destruct (Hmapped n Hn) as [path E].
    rewrite (renamed_mapped _ _ _ E). split; [|split].
    - now rewrite contains_sep_append, hexdigest_no_sep.
    - apply hexdigest_visible.
    - now exists (MD5.hexdigest path). }
  destruct (rename_assets_all t (pattern_dirname t "-asset.json") ids Hids
              selected d) as [d1 [Hrun1 [Hdone Hother]]].
  { apply Forall_forall. intros n Hn. rewrite Forall_forall in Hsep.
    now apply Hsep, Hsel. }
  { intros n Hn. apply dict_get_in_keys. now apply Hsel. }
  { intros n Hn. destruct (Hmapped n Hn) as [path E]. congruence. }
  { unfold selected. now apply NoDup_filter. }
  { exact Hnew. }
  { intros n Hn. apply dict_get_none. now apply Hfree. }
  assert (Hpass1 : pass1 t ids d = (Ok tt, d1))
    by (rewrite pass1_run; exact Hrun1).
  assert (Hnd1 : NoDup (keys d1))
    by (apply (rename_assets_nodup _ _ _ _ _ _ Hnd Hrun1)).
  assert (Hkeys1 : forall k, In k (keys d1) ->
            (In k (keys d) /\ ~ In k selected)
            \/ In k (map (renamed ids) selected)).
  { intros k Hk. apply dict_get_in_keys in Hk.
    destruct (in_dec string_dec k selected) as [Hs|Hs].
    - destruct (Hdone k Hs) as [_ Hgone]. congruence.
    - destruct (in_dec string_dec k (map (renamed ids) selected)) as [Hr|Hr];
        [now right|].
      left. split; [|exact Hs]. apply dict_get_in_keys.
      now rewrite <- (Hother k Hs Hr). }
  assert (Hsep1 : Forall (fun n => Str.contains n "/" = false) (keys d1)).
  { apply Forall_forall. intros k Hk.
    destruct (Hkeys1 k Hk) as [[Hin _]|Hr].
    - rewrite Forall_forall in Hsep. now apply Hsep.
    - apply in_map_iff in Hr. destruct Hr as [n [<- Hn]].
      now apply Hrenamed. }
  assert (Hbak1 : forall n, In n (keys d1) -> ~ In (n ++ ".bak") (keys d1)).
  { intros n _ Hb. destruct (Hkeys1 _ Hb) as [[Hin _]|Hr].
    - apply Hbak in Hin. rewrite endswith_append in Hin. discriminate.
    - apply in_map_iff in Hr. destruct Hr as [m [E Hm]].
      destruct (Hrenamed m Hm) as [_ [_ [x Hx]]].
      rewrite Hx in E. symmetry in E. now apply bak_not_asset in E. }
  destruct (pass2_pointwise t ids old new d1 Hnd1 Hsep1 Hbak1)
    as [d2 [Hpass2 Hget]].
  exists d2. split; [|split].
  - exact (main_steps json_load new_source_directory t vott_file text
             path_value v records first others ids d d1 d2
             Hfile Hread Hload Ha Hfirst Hpath Hmapper Hpass1 Hpass2).
  - intros n Hn. destruct (Hdone n Hn) as [Hmoved Hgone].
    destruct (Hsel n Hn) as [_ Hvis].
    destruct (Hrenamed n Hn) as [_ [Hvis' _]].
    rewrite !Hget, Hmoved, Hgone, Hvis'. split; [|reflexivity].
    destruct (dict_get d n) as [[c|e]|]; cbn [option_map rewritten];
      [now rewrite Hvis | reflexivity | reflexivity].
  - intros k Hs Hr. rewrite Hget, (Hother k Hs Hr).
    destruct (dict_get d k) as [[c|e]|]; cbn [option_map rewritten];
      [now destruct (ishidden k) | reflexivity | reflexivity].
Qed.

(** X15. The whole run on a well-formed project. The path of the target
    directory is not empty and has none of the pattern characters [*], [?],
    [[]; the directory
    has distinct names without "/", none ending with .bak; the project file is found, read
    and parsed; every asset record has an id and a name and the first one a
    path; the manifest has the names of both connections and the security
    token; every entry that ends with -asset.json (and does not begin with a
    dot) has an asset id before its first "-", and the new names are pairwise
    distinct and not yet in the directory. Then [main] ends without an
    error, and in the directory it leaves: each such entry is found under its
    new name <new id>-asset.json and no longer under the old one; every other
    name holds what it held; and what a name holds is, for a regular file
    whose name does not begin with a dot, the text rewritten by Pass 2 with
    the mapping of the manifest, the old source directory of the first asset
    and the new source directory in its %20 form, and for a directory or a
    file whose name begins with a dot, what it was. *)
Theorem main_migrates (json_load : string -> result vott)
  (new_source_directory t vott_file text path_value : string) (v : vott)
  (records : dict asset) (first : asset) (others : list asset)
  (source target : dict string) (d : fs) :
  t <> "" -> has_magic t = false ->
  NoDup (keys d) ->
  Forall (fun n => Str.contains n "/" = false) (keys d) ->
  (forall n, In n (keys d) -> Str.endswith n ".bak" = false) ->
  get_single_file_with_suffix (listdir d) t (SuffixStr ".vott") = Ok vott_file ->
  read_text vott_file d = (Ok text, d) ->
  json_load text = Ok v ->
  assets v = Some records ->
  values records = first :: others ->
  dict_get first "path" = Some path_value ->
  Forall has_id_and_name (values records) ->
  sourceConnection v = Some source -> dict_get source "name" <> None ->
  targetConnection v = Some target -> dict_get target "name" <> None ->
  securityToken v <> None ->
  let new := npm_ready new_source_directory in
  let old := old_source_directory_of path_value in
  let ids := mapped new (values records) [] in
  let selected := filter (matches "-asset.json") (listdir d) in
  (forall n, In n selected ->
     In (Str.before "-" n) (map asset_id (values records))) ->
  NoDup (map (renamed ids) selected) ->
  (forall n, In n selected -> ~ In (renamed ids n) (keys d)) ->
  exists d',
    main json_load new_source_directory t d = (Ok tt, d')
    /\ map_old_vott_path_and_id_to_new v new = Ok ids
    /\ (forall n, In n selected ->
          dict_get d' (renamed ids n)
          = option_map (rewritten ids old new n) (dict_get d n)
          /\ dict_get d' n = None)
    /\ (forall k, ~ In k selected -> ~ In k (map (renamed ids) selected) ->
          dict_get d' k = option_map (rewritten ids old new k) (dict_get d k)).
Proof.
  intros _ _ Hnd Hsep Hbak Hfile Hread Hload Ha Hfirst Hpath Hwf
         Hsrc Hsname Htgt Htname Htoken new old ids selected
         Hknown Hnew Hfree.
  destruct (main_passes json_load new_source_directory t vott_file text
              path_value v records first others d
              Hnd Hsep Hbak Hfile Hread Hload Ha Hfirst Hpath Hwf
              Hknown Hnew Hfree) as [d' [Hrun [Hassets Hothers]]].
  assert (Hclosing : closing v = Ok tt).
  { unfold closing, getitem. rewrite Hsrc, Htgt. cbn [field result_bind].
    destruct (dict_get source "name"); [|congruence].
    destruct (dict_get target "name"); [|congruence].
    cbn [result_bind]. now destruct (securityToken v). }
  exists d'. split; [now rewrite Hrun, Hclosing|].
  split; [|split; [exact Hassets | exact Hothers]].
  unfold map_old_vott_path_and_id_to_new. rewrite Ha.
  cbn [field result_bind]. now apply map_assets_fold.
Qed.

Lemma main_migrates_witness :
  exists d',
    main (fun _ => Ok cat_manifest) "/data/my imgs" "/proj" cat_project
    = (Ok tt, d')
    /\ dict_get d' "project.vott"
       = Some (File ("id f81131780c2404f791d423180261bad9"
                       ++ " path file:/data/my%20imgs/cat.jpg"))
    /\ dict_get d' (id_a ++ "-asset.json") = None
    /\ dict_get d' ".cache" = Some (File id_a).
Proof.
  destruct (main_migrates (fun _ => Ok cat_manifest) "/data/my imgs" "/proj"
              "/proj/project.vott"
              ("id " ++ id_a ++ " path file:/home/alice/imgs/cat.jpg")
              "file:/home/alice/imgs/cat.jpg" cat_manifest
              [(id_a, id_a_record)] id_a_record []
              [("name", "source")] [("name", "target")] cat_project)
    as [d' [Hrun [_ [Hassets Hothers]]]].
  - discriminate.
  - reflexivity.
  - repeat constructor; cbn; intuition discriminate.
  - repeat constructor.
  - intros n [<-|[<-|[<-|[<-|[]]]]]; reflexivity.
  - reflexivity.
  - reflexivity.
  - reflexivity.
  - reflexivity.
  - reflexivity.
  - reflexivity.
  - repeat constructor; discriminate.
  - reflexivity.
  - discriminate.
  - reflexivity.
  - discriminate.
  - discriminate.
  - intros n [<-|[]]. now left.
  - vm_compute. repeat constructor. intros [].
  - intros n [<-|[]]. vm_compute. intuition discriminate.
  - exists d'. split; [exact Hrun|]. split; [|split].
    + rewrite (Hothers "project.vott").
      * vm_compute. reflexivity.
      * cbn. intuition discriminate.
      * vm_compute. intuition discriminate.
    + now destruct (Hassets (id_a ++ "-asset.json") (or_introl eq_refl)).
    + rewrite (Hothers ".cache").
      * reflexivity.
      * cbn. intuition discriminate.
      * vm_compute. intuition discriminate.
Defined.

(** X16. The connection names and the security token are looked up only
    after both passes. On a project as in X15 (a target directory path that
    is not empty and has none of the pattern characters [*], [?], [[], and so
    on) whose manifest lacks one of them, [main] raises the KeyError of the first missing key, in the order
    sourceConnection, its name, targetConnection, its name, securityToken;
    the directory it leaves is already migrated: the asset files have their
    new names and the contents are rewritten. *)
Theorem main_late_key_error (json_load : string -> result vott)
  (new_source_directory t vott_file text path_value : string) (v : vott)
  (records : dict asset) (first : asset) (others : list asset) (d : fs) :
  t <> "" -> has_magic t = false ->
  NoDup (keys d) ->
  Forall (fun n => Str.contains n "/" = false) (keys d) ->
  (forall n, In n (keys d) -> Str.endswith n ".bak" = false) ->
  get_single_file_with_suffix (listdir d) t (SuffixStr ".vott") = Ok vott_file ->
  read_text vott_file d = (Ok text, d) ->
  json_load text = Ok v ->
  assets v = Some records ->
  values records = first :: others ->
  dict_get first "path" = Some path_value ->
  Forall has_id_and_name (values records) ->
  let new := npm_ready new_source_directory in
  let old := old_source_directory_of path_value in
  let ids := mapped new (values records) [] in
  let selected := filter (matches "-asset.json") (listdir d) in
  (forall n, In n selected ->
     In (Str.before "-" n) (map asset_id (values records))) ->
  NoDup (map (renamed ids) selected) ->
  (forall n, In n selected -> ~ In (renamed ids n) (keys d)) ->
  exists d',
    (forall n, In n selected ->
       dict_get d' (renamed ids n)
       = option_map (rewritten ids old new n) (dict_get d n)
       /\ dict_get d' n = None)
    /\ (forall k, ~ In k selected -> ~ In k (map (renamed ids) selected) ->
          dict_get d' k = option_map (rewritten ids old new k) (dict_get d k))
    /\ (sourceConnection v = None ->
          main json_load new_source_directory t d
          = (Raise (KeyError "sourceConnection"), d'))
    /\ (forall source, sourceConnection v = Some source ->
          dict_get source "name" = None ->
          main json_load new_source_directory t d = (Raise (KeyError "name"), d'))
    /\ (forall source, sourceConnection v = Some source ->
          dict_get source "name" <> None ->
          targetConnection v = None ->
          main json_load new_source_directory t d
          = (Raise (KeyError "targetConnection"), d'))
    /\ (forall source target, sourceConnection v = Some source ->
          dict_get source "name" <> None ->
          targetConnection v = Some target ->
          dict_get target "name" = None ->
          main json_load new_source_directory t d = (Raise (KeyError "name"), d'))
    /\ (forall source target, sourceConnection v = Some source ->
          dict_get source "name" <> None ->
          targetConnection v = Some target ->
          dict_get target "name" <> None ->
          securityToken v = None ->
          main json_load new_source_directory t d
          = (Raise (KeyError "securityToken"), d')).
Proof.
  intros _ _ Hnd Hsep Hbak Hfile Hread Hload Ha Hfirst Hpath Hwf
         new old ids selected Hknown Hnew Hfree.
  destruct (main_passes json_load new_source_directory t vott_file text
              path_value v records first others d
              Hnd Hsep Hbak Hfile Hread Hload Ha Hfirst Hpath Hwf
              Hknown Hnew Hfree) as [d' [Hrun [Hassets Hothers]]].
  exists d'. split; [exact Hassets|]. split; [exact Hothers|].
  rewrite Hrun. unfold closing, getitem.
  repeat split.
  - intros Hs. now rewrite Hs.
  - intros source Hs Hn. rewrite Hs. cbn [field result_bind]. now rewrite Hn.
  - intros source Hs Hn Ht. rewrite Hs, Ht. cbn [field result_bind].
    destruct (dict_get source "name"); [reflexivity | congruence].
  - intros source target Hs Hn Ht Htn. rewrite Hs, Ht. cbn [field result_bind].
    destruct (dict_get source "name"); [|congruence].
    cbn [result_bind]. now rewrite Htn.
  - intros source target Hs Hn Ht Htn Hk. rewrite Hs, Ht, Hk.
    cbn [field result_bind].
    destruct (dict_get source "name"); [|congruence].
    destruct (dict_get target "name"); [reflexivity | congruence].
Qed.

Lemma main_late_key_error_witness :
  exists d',
    main (fun _ => Ok cat_manifest_no_token) "/data/my imgs" "/proj" cat_project
    = (Raise (KeyError "securityToken"), d')
    /\ dict_get d' "project.vott"
       = Some (File ("id f81131780c2404f791d423180261bad9"
                       ++ " path file:/data/my%20imgs/cat.jpg"))
    /\ dict_get d' (id_a ++ "-asset.json") = None.
Proof.
  destruct (main_late_key_error (fun _ => Ok cat_manifest_no_token)
              "/data/my imgs" "/proj" "/proj/project.vott"
              ("id " ++ id_a ++ " path file:/home/alice/imgs/cat.jpg")
              "file:/home/alice/imgs/cat.jpg" cat_manifest_no_token
              [(id_a, id_a_record)] id_a_record [] cat_project)
    as [d' [Hassets [Hothers [_ [_ [_ [_ Htoken]]]]]]].
  - discriminate.
  - reflexivity.
  - repeat constructor; cbn; intuition discriminate.
  - repeat constructor.
  - intros n [<-|[<-|[<-|[<-|[]]]]]; reflexivity.
  - reflexivity.
  - reflexivity.
  - reflexivity.
  - reflexivity.
  - reflexivity.
  - reflexivity.
  - repeat constructor; discriminate.
  - intros n [<-|[]]. now left.
  - vm_compute. repeat constructor. intros [].
  - intros n [<-|[]]. vm_compute. intuition discriminate.
  - exists d'. split; [|split].
    + apply (Htoken [("name", "source")] [("name", "target")]);
        [reflexivity | discriminate | reflexivity | discriminate | reflexivity].
    + rewrite (Hothers "project.vott").
      * vm_compute. reflexivity.
      * cbn. intuition discriminate.
      * vm_compute. intuition discriminate.
    + now destruct (Hassets (id_a ++ "-asset.json") (or_introl eq_refl)).
Defined.

